(** * zget/put.py: the sending side of the zget file transfer

    A shallow embedding of [FileHandler.do_GET], of the single
    [handle_request] of the HTTP server it is mounted on and of [put], the
    function that announces the file over zeroconf, serves one request and
    tears everything down.

    Conventions.  Python strings are [string], file contents are
    [list byte], integers are [Z].  Python exceptions are values of [exn];
    code that can raise runs in the monad [M], which threads the [world]
    and keeps it when an exception is raised (an exception does not undo
    effects).  Calls of [utils.logger] write to a log nobody observes and
    are left out. *)

From Stdlib Require Import ZArith List String Ascii Bool Lia.
From Stdlib Require Import Strings.Byte.
Import ListNotations.

Local Open Scope string_scope.
Local Open Scope list_scope.
Local Open Scope Z_scope.

(** ** Paths ([os.path], posix flavour) *)

Module Path.

Definition sep : ascii := "/"%char.

(** [p.rfind('/')]: the index of the last separator, [-1] when there is
    none. *)
Fixpoint rfind_sep (p : string) : Z :=
  match p with
  | EmptyString => -1
  | String c p' =>
      let r := rfind_sep p' in
      if 0 <=? r then r + 1
      else if Ascii.eqb c sep then 0 else -1
  end.

(** [p[i:]] *)
Definition slice_from (i : Z) (p : string) : string :=
  substring (Z.to_nat i) (String.length p) p.

(** [os.path.basename]: [i = p.rfind('/') + 1; return p[i:]] *)
Definition basename (p : string) : string :=
  slice_from (rfind_sep p + 1) p.

Definition startswith_sep (p : string) : bool :=
  match p with
  | String c _ => Ascii.eqb c sep
  | EmptyString => false
  end.

Definition curdir : string := ".".

(** [os.path.join(os.curdir, b)]: an absolute [b] replaces the path
    built so far, anything else is appended after a separator. *)
Definition join_curdir (b : string) : string :=
  if startswith_sep b then b else (curdir ++ String sep b)%string.

End Path.

(** ** Exceptions *)

Inductive exn : Type :=
| KeyboardInterrupt
| RuntimeError (msg : string)
| IOError (path : string)
| ValueError (msg : string) (arg : Z)
| NameError (var : string)
| TimeoutException
| socket_error
| ZeroconfError (msg : string)
| UnicodeEncodeError (value : string).

(** ** The server object and the peer's end of a connection *)

(** A progress hook is a callable supplied by the caller of [put]; what it
    does with its arguments is its own business.  The model keeps the calls
    made to it. *)
Inductive hook : Type := ProgressHook.

(** One call [reporthook(i, 1024 * 8, maxsize)].  [sent] is not an argument
    of the call: it is the number of body bytes that [wfile.write] has put
    on the wire when the call is made. *)
Record hook_call : Type := mkCall {
  blocknum : Z;
  blocksize : Z;
  totalsize : Z;
  sent : Z
}.

Inductive sock_state : Type := Unbound | Listening | Closed.

(** [StateHTTPServer]: the attributes the class declares ([downloaded],
    [filename], [basename], [reporthook]) and those [put] sets on the
    instance ([token], [timeout]) or reads from it ([server_port],
    [socket]). *)
Record StateHTTPServer : Type := mkServer {
  downloaded : bool;
  token : string;
  filename : string;
  basename : string;
  reporthook : option hook;
  timeout : option Z;
  server_port : Z;
  socket : sock_state
}.

Definition set_downloaded (b : bool) (s : StateHTTPServer) : StateHTTPServer :=
  mkServer b (token s) (filename s) (basename s) (reporthook s)
           (timeout s) (server_port s) (socket s).

Definition set_socket (k : sock_state) (s : StateHTTPServer) : StateHTTPServer :=
  mkServer (downloaded s) (token s) (filename s) (basename s) (reporthook s)
           (timeout s) (server_port s) k.

(** A header value is what the handler passes to [send_header]: a string,
    or the integer [maxsize]. *)
Inductive hval : Type :=
| HStr (s : string)
| HInt (n : Z).

(** What one request handler has written to its peer: the status passed to
    [send_response], the headers passed to [send_header] in order, and the
    bytes passed to [wfile.write]. *)
Record response : Type := mkResponse {
  status : option Z;
  headers : list (string * hval);
  body : list byte
}.

Definition no_response : response := mkResponse None [] [].

Definition send_response (code : Z) (r : response) : response :=
  mkResponse (Some code) (headers r) (body r).

Definition send_header (k : string) (v : hval) (r : response) : response :=
  mkResponse (status r) (headers r ++ [(k, v)]) (body r).

Definition wfile_write (data : list byte) (r : response) : response :=
  mkResponse (status r) (headers r) (body r ++ data).

(** The file system, as far as the handler reads it: the contents of the
    file at a path, [None] when [open] fails. *)
Definition filesystem : Type := string -> option (list byte).

(** ** FileHandler.do_GET *)

Definition chunksize : Z := 1024 * 8.

Definition dquote : string := String "034"%char EmptyString.

(** ['inline; filename="%s"' % name] *)
Definition inline_filename (name : string) : string :=
  ("inline; filename=" ++ dquote ++ name ++ dquote)%string.

(** The state a handler works on: the server it belongs to, the response
    under construction and the calls received by the hook. *)
Record handler_state : Type := mkH {
  h_server : StateHTTPServer;
  h_out : response;
  h_calls : list hook_call
}.

Definition call_hook (i maxsize : Z) (h : handler_state) : handler_state :=
  match reporthook (h_server h) with
  | Some _ =>
      mkH (h_server h) (h_out h)
          (h_calls h ++
             [mkCall i chunksize maxsize (Z.of_nat (List.length (body (h_out h))))])
  | None => h
  end.

Definition write_chunk (data : list byte) (h : handler_state) : handler_state :=
  mkH (h_server h) (wfile_write data (h_out h)) (h_calls h).

(** The [while True] loop of [do_GET].  [fh] is what is left to read of the
    open file; [fh.read(1024 * 8)] takes its first [chunksize] bytes.  The
    loop is given [fuel] iterations; [None] means the fuel ran out
    ([send_loop_terminates] shows that it does not). *)
Fixpoint send_loop (fuel : nat) (fh : list byte) (i maxsize : Z)
    (h : handler_state) : option handler_state :=
  match fuel with
  | O => None
  | S fuel' =>
      match firstn (Z.to_nat chunksize) fh with
      | [] => Some h
      | data =>
          send_loop fuel' (skipn (Z.to_nat chunksize) fh) (i + 1) maxsize
                    (call_hook i maxsize (write_chunk data h))
      end
  end.

(** [self.path in ('/' + self.server.token, '/' + self.server.basename)] *)
Definition accepted (s : StateHTTPServer) (path : string) : bool :=
  String.eqb path ("/" ++ token s)%string
  || String.eqb path ("/" ++ basename s)%string.

Definition map_out (f : response -> response) (h : handler_state) : handler_state :=
  mkH (h_server h) (f (h_out h)) (h_calls h).

(** The result of a handler: the state it leaves and the exception it
    raised, if any. *)
Definition do_GET (fs : filesystem) (path : string) (h : handler_state)
  : handler_state * option exn :=
  if accepted (h_server h) path then
    let full_path := Path.join_curdir (filename (h_server h)) in
    match fs full_path with
    | None => (h, Some (IOError full_path))
    | Some content =>
        let maxsize := Z.of_nat (List.length content) in
        let h1 := map_out (send_response 200) h in
        let h2 := map_out (send_header "Content-type"
                             (HStr "application/octet-stream")) h1 in
        let h3 := map_out (send_header "Content-disposition"
                             (HStr (inline_filename
                                      (Path.basename (filename (h_server h)))))) h2 in
        let h4 := map_out (send_header "Content-length" (HInt maxsize)) h3 in
        match send_loop (S (List.length content)) content 0 maxsize h4 with
        | None => (h4, None)
        | Some h5 =>
            (mkH (set_downloaded true (h_server h5)) (h_out h5) (h_calls h5), None)
        end
    end
  else
    (map_out (send_response 404) h,
     Some (RuntimeError "Invalid request received. Aborting.")).

(** ** zeroconf

    The [zeroconf] package is a library the program uses.  Its object keeps
    the registered records in a dictionary keyed by record name;
    [register_service] adds a record, [unregister_service] deletes the entry
    of that name (an absent entry is logged by the library, not raised), and
    [close] unregisters whatever is still registered before it shuts the
    sockets down. *)

Record ServiceInfo : Type := mkInfo {
  type_ : string;
  name : string;
  address : list byte;
  port : Z;
  weight : Z;
  priority : Z;
  properties : list (string * option string)
}.

(** [announced] and [withdrawn] are the history of the object: the records
    whose registration succeeded, and the records removed from [services],
    both in order. *)
Record Zeroconf : Type := mkZeroconf {
  services : list ServiceInfo;
  announced : list ServiceInfo;
  withdrawn : list ServiceInfo;
  closed : bool
}.

Definition Zeroconf_new : Zeroconf := mkZeroconf [] [] [] false.

Definition same_name (i j : ServiceInfo) : bool := String.eqb (name i) (name j).

Definition zc_register (i : ServiceInfo) (z : Zeroconf) : Zeroconf :=
  mkZeroconf (services z ++ [i]) (announced z ++ [i]) (withdrawn z) (closed z).

Definition zc_unregister (i : ServiceInfo) (z : Zeroconf) : Zeroconf :=
  mkZeroconf (filter (fun j => negb (same_name i j)) (services z))
             (announced z)
             (withdrawn z ++ filter (same_name i) (services z))
             (closed z).

Definition zc_close (z : Zeroconf) : Zeroconf :=
  mkZeroconf [] (announced z) (withdrawn z ++ services z) true.

(** ** The world [put] runs in *)

(** What reaches the listening socket while the server waits: a GET request
    for a path, or the operator's interrupt. *)
Inductive incoming : Type :=
| Request (path : string)
| Interrupt.

(** Everything [put] does not compute itself.  [config_port],
    [config_interface], [default_interface], [ip_addr] and [prepare_token]
    stand for the functions of [zget.utils] of those names ([utils.config()]
    read at ['DEFAULT']), [sha1_hexdigest] for [hashlib.sha1(..).hexdigest()]
    and [inet_aton] for [socket.inet_aton], [None] being its [socket.error].
    [ephemeral_port] is the port the operating system picks when asked to
    bind port 0.  [register_outcome] says how the registration of a record
    ends: [None] when it succeeds, the exception raised otherwise.
    [arrivals] lists, in order, what reaches the socket before the deadline
    of the wait. *)
Record environment : Type := mkEnv {
  config_port : Z;
  config_interface : option string;
  default_interface : string;
  ip_addr : string -> string;
  prepare_token : option string -> string * string;
  sha1_hexdigest : string -> string;
  inet_aton : string -> option (list byte);
  ephemeral_port : Z;
  fs : filesystem;
  register_outcome : ServiceInfo -> option exn;
  arrivals : list incoming
}.

(** [info] is the local variable of [put] of that name, unbound until the
    loop assigns it.  [answered] holds what each handled request was sent,
    [calls] the calls the progress hook received, [pending] what has not
    been accepted yet, [stderr] the exceptions the server reported there. *)
Record world : Type := mkWorld {
  server : StateHTTPServer;
  zeroconf : Zeroconf;
  info : option ServiceInfo;
  answered : list response;
  calls : list hook_call;
  pending : list incoming;
  stdout : list string;
  stderr : list exn
}.

(** The class attributes of [StateHTTPServer], before any instance is
    bound. *)
Definition class_defaults : StateHTTPServer :=
  mkServer false "" "" "" None None 0 Unbound.

Definition initial (env : environment) : world :=
  mkWorld class_defaults Zeroconf_new None [] [] (arrivals env) [] [].

Definition with_server (f : StateHTTPServer -> StateHTTPServer) (w : world) : world :=
  mkWorld (f (server w)) (zeroconf w) (info w) (answered w) (calls w)
          (pending w) (stdout w) (stderr w).

Definition with_zeroconf (f : Zeroconf -> Zeroconf) (w : world) : world :=
  mkWorld (server w) (f (zeroconf w)) (info w) (answered w) (calls w)
          (pending w) (stdout w) (stderr w).

Definition with_info (i : ServiceInfo) (w : world) : world :=
  mkWorld (server w) (zeroconf w) (Some i) (answered w) (calls w)
          (pending w) (stdout w) (stderr w).

Definition with_pending (l : list incoming) (w : world) : world :=
  mkWorld (server w) (zeroconf w) (info w) (answered w) (calls w)
          l (stdout w) (stderr w).

Definition with_stdout (line : string) (w : world) : world :=
  mkWorld (server w) (zeroconf w) (info w) (answered w) (calls w)
          (pending w) (stdout w ++ [line]) (stderr w).

Definition with_stderr (e : exn) (w : world) : world :=
  mkWorld (server w) (zeroconf w) (info w) (answered w) (calls w)
          (pending w) (stdout w) (stderr w ++ [e]).

(** The world after a handler has run on the request at the head of
    [pending]. *)
Definition handled (h : handler_state) (rest : list incoming) (w : world) : world :=
  mkWorld (h_server h) (zeroconf w) (info w) (answered w ++ [h_out h])
          (h_calls h) rest (stdout w) (stderr w).

(** ** The monad of [put] *)

Inductive outcome (A : Type) : Type :=
| Returns (a : A)
| Raises (e : exn)
| Blocks.

Arguments Returns {A} a.
Arguments Raises {A} e.
Arguments Blocks {A}.

Definition M (A : Type) : Type := world -> outcome A * world.

Definition ret {A} (a : A) : M A := fun w => (Returns a, w).

Definition raise {A} (e : exn) : M A := fun w => (Raises e, w).

Definition bind {A B} (m : M A) (k : A -> M B) : M B :=
  fun w =>
    match m w with
    | (Returns a, w') => k a w'
    | (Raises e, w') => (Raises e, w')
    | (Blocks, w') => (Blocks, w')
    end.

Notation "x <- m ;; k" := (bind m (fun x => k))
  (at level 61, m at next level, right associativity).
Notation "m ;; k" := (bind m (fun _ => k))
  (at level 61, right associativity).

Definition gets {A} (f : world -> A) : M A := fun w => (Returns (f w), w).

Definition modify (f : world -> world) : M unit := fun w => (Returns tt, f w).

(** [try: m except KeyboardInterrupt: pass] *)
Definition try_except_KeyboardInterrupt (m : M unit) : M unit :=
  fun w =>
    match m w with
    | (Raises KeyboardInterrupt, w') => (Returns tt, w')
    | r => r
    end.

(** [for x in l: body] *)
Fixpoint for_each {A} (l : list A) (body : A -> M unit) : M unit :=
  match l with
  | [] => ret tt
  | x :: l' => body x ;; for_each l' body
  end.

(** ** The HTTP server

    [StateHTTPServer((address, port), FileHandler)] binds and listens; the
    port read back into [server_port] is the one asked for, or the one the
    system picked when port 0 was asked for.  The runs followed here are
    those in which the system grants the bind; one it refuses raises
    [socket.error] at this statement, before anything is printed or
    registered. *)
Definition bound_port (env : environment) (port : Z) : Z :=
  if port =? 0 then ephemeral_port env else port.

(** [handle_request] of the standard library's server: it waits until a
    connection can be accepted or the [timeout] of the server has passed.
    With nothing arriving it returns when the deadline passes and waits
    for ever when there is none.  An interrupt during the wait is raised to
    the caller.  A request is given to one handler; an exception the handler
    raises is reported on stderr by [handle_error] and goes no further.
    One call handles at most one request.  What arrives is a complete
    request or an interrupt: the timeout bounds the wait for a connection
    only, and a peer that connects and then sends nothing is not among the
    arrivals.  The handler runs as [do_GET], on a connection that does not
    fail it; [handle_request_on] below runs it on one that can. *)
Definition handle_request (env : environment) : M unit :=
  fun w =>
    match pending w with
    | [] =>
        match timeout (server w) with
        | Some _ => (Returns tt, w)
        | None => (Blocks, w)
        end
    | Interrupt :: rest => (Raises KeyboardInterrupt, with_pending rest w)
    | Request path :: rest =>
        match do_GET (fs env) path (mkH (server w) no_response (calls w)) with
        | (h, None) => (Returns tt, handled h rest w)
        | (h, Some e) => (Returns tt, with_stderr e (handled h rest w))
        end
    end.

(** [zeroconf.register_service(info)] *)
Definition register_service (env : environment) (i : ServiceInfo) : M unit :=
  match register_outcome env i with
  | None => modify (with_zeroconf (zc_register i))
  | Some e => raise e
  end.

(** [zeroconf.unregister_service(info)], [info] being the local variable:
    reading it unbound is a [NameError]. *)
Definition unregister_service_info : M unit :=
  fun w =>
    match info w with
    | Some i => (Returns tt, with_zeroconf (zc_unregister i) w)
    | None => (Raises (NameError "info"), w)
    end.

(** ** put *)

Definition service_type : string := "_zget._http._tcp.local.".

(** ["%s._zget._http._tcp.local." % announce_token] *)
Definition service_name (announce_token : string) : string :=
  (announce_token ++ "._zget._http._tcp.local.")%string.

(** The body of the announcing loop for one token. *)
Definition announce (env : environment) (address : string) (port : Z)
    (announce_token : string) : M unit :=
  match inet_aton env address with
  | None => raise socket_error
  | Some packed =>
      let i := mkInfo service_type (service_name announce_token)
                      packed port 0 0 [("path", None)] in
      modify (with_info i) ;;
      register_service env i
  end.

(** [if port is None: port = utils.config().getint('DEFAULT', 'port')] *)
Definition port_or_default (env : environment) (port : option Z) : Z :=
  match port with Some p => p | None => config_port env end.

(** The three steps that settle the address: an interface left out is read
    from the configuration, one still missing is the default interface, and
    an address left out is that of the interface. *)
Definition address_or_default (env : environment)
    (interface address : option string) : string :=
  let interface :=
    match interface with Some i => Some i | None => config_interface env end in
  let interface :=
    match interface with Some i => i | None => default_interface env end in
  match address with Some a => a | None => ip_addr env interface end.

Definition in_port_range (port : Z) : bool := (0 <=? port) && (port <=? 65535).

(** The body of the [try]: announce under both names, then serve. *)
Definition announce_and_serve (env : environment) (address : string) (port : Z)
    (broadcast_token filehash : string) : M unit :=
  for_each [broadcast_token; filehash] (announce env address port) ;;
  handle_request env.

(** The three statements after the [try]. *)
Definition teardown : M unit :=
  modify (with_server (set_socket Closed)) ;;
  unregister_service_info ;;
  modify (with_zeroconf zc_close).

(** The last statement of [put]. *)
Definition verdict (timeout : option Z) : M unit :=
  downloaded <- gets (fun w => downloaded (server w)) ;;
  match timeout with
  | Some _ => if negb downloaded then raise TimeoutException else ret tt
  | None => ret tt
  end.

Definition put (env : environment) (filename : string)
    (token interface address : option string) (port : option Z)
    (reporthook : option hook) (timeout : option Z) : M unit :=
  let port := port_or_default env port in
  if negb (in_port_range port) then
    raise (ValueError "Port %d exceeds allowed range" port)
  else
    let basename := Path.basename filename in
    let filehash := sha1_hexdigest env basename in
    let '(broadcast_token, secret_token) := prepare_token env token in
    let address := address_or_default env interface address in
    modify (with_server (fun _ =>
      mkServer false secret_token filename basename reporthook timeout
               (bound_port env port) Listening)) ;;
    port <- gets (fun w => server_port (server w)) ;;
    match token with
    | None =>
        modify (with_stdout (filename ++ " is now available on the network")%string) ;;
        modify (with_stdout ("Ask your friend to 'zget " ++ broadcast_token
                               ++ secret_token ++ "'")%string)
    | Some _ => ret tt
    end ;;
    modify (with_zeroconf (fun _ => Zeroconf_new)) ;;
    try_except_KeyboardInterrupt
      (announce_and_serve env address port broadcast_token filehash) ;;
    teardown ;;
    verdict timeout.

(** Running [put] from the initial world. *)
Definition run (env : environment) (filename : string)
    (token interface address : option string) (port : option Z)
    (reporthook : option hook) (timeout : option Z) : outcome unit * world :=
  put env filename token interface address port reporthook timeout (initial env).

(** Teardown has run: the listening socket is closed and the zeroconf
    object is closed with nothing left registered. *)
Definition torn_down (w : world) : Prop :=
  socket (server w) = Closed /\
  closed (zeroconf w) = true /\
  services (zeroconf w) = [].

(** The record [put] builds for an alias. *)
Definition record_for (packed : list byte) (port : Z) (alias : string) : ServiceInfo :=
  mkInfo service_type (service_name alias) packed port 0 0 [("path", None)].

(** ** Sample data *)

Module Sample.

Definition content : list byte := [x7a; x67; x65; x74].

Definition files : filesystem :=
  fun p => if String.eqb p "./notes.txt" then Some content else None.

(** A file of one chunk and one byte. *)
Definition long_content : list byte := repeat x61 (Z.to_nat chunksize + 1).

Definition long_files : filesystem :=
  fun p => if String.eqb p "./long.bin" then Some long_content else None.

Definition env (regs : ServiceInfo -> option exn) (arr : list incoming)
  : environment :=
  mkEnv 0 None "eth0" (fun _ => "192.168.0.7")
        (fun t => match t with
                  | Some t => (substring 0 2 t, substring 2 (String.length t) t)
                  | None => ("ab", "cd")
                  end)
        (fun _ => "da39a3ee5e6b4b0d3255bfef95601890afd80709")
        (fun _ => Some [xc0; xa8; x00; x07])
        49152 files regs arr.

Definition all_register : ServiceInfo -> option exn := fun _ => None.

Definition none_registers : ServiceInfo -> option exn :=
  fun _ => Some (ZeroconfError "NonUniqueNameException").

Definition srv : StateHTTPServer :=
  mkServer false "cd" "notes.txt" "notes.txt" (Some ProgressHook) None 49152
           Listening.

Definition long_srv : StateHTTPServer :=
  mkServer false "cd" "long.bin" "long.bin" (Some ProgressHook) None 49152
           Listening.

End Sample.


(** ** The token codec

    [put] obtains its two fragments from [utils.prepare_token], which is not
    among the sources; in [put] it is a field of the environment.  The codec
    below is the one the specification describes. *)

Module TokenCodec.

(** Modelled from the spec: the error of a token of malformed length, of
    [zget.utils], which is not among the sources. *)
Inductive error : Type := InvalidTokenFormat.

Section Lengths.

(** The agreed lengths of the two fragments. *)
Variables broadcast_length secret_length : nat.

(** Modelled from the spec: the fixed total length of a token, of
    [zget.utils], which is not among the sources. *)
Definition token_length : nat := (broadcast_length + secret_length)%nat.

(** Modelled from the spec: the random draws behind [generate], of
    [zget.utils], which is not among the sources; [n] characters taken from
    a random source, from its [k]-th draw on. *)
Fixpoint draw (random : nat -> ascii) (k n : nat) : string :=
  match n with
  | O => EmptyString
  | S n' => String (random k) (draw random (S k) n')
  end.

(** Modelled from the spec: [generate], of [zget.utils], is not among
    the sources.  A token is a random string of the fixed total
    length. *)
Definition generate (random : nat -> ascii) : string :=
  draw random 0 token_length.

(** Modelled from the spec: [split], of [zget.utils], is not among the
    sources.  The broadcast fragment is the first [broadcast_length]
    characters, the secret fragment the [secret_length] that follow. *)
Definition split (token : string) : string * string :=
  (substring 0 broadcast_length token,
   substring broadcast_length secret_length token).

(** Modelled from the spec: [combine], of [zget.utils], is not among the
    sources.  It is the concatenation of the fragments, and fails on a
    total length that is not a token's. *)
Definition combine (broadcast_fragment secret_fragment : string)
  : error + string :=
  let token := (broadcast_fragment ++ secret_fragment)%string in
  if Nat.eqb (String.length token) token_length then inr token
  else inl InvalidTokenFormat.

End Lengths.

End TokenCodec.

(** ** The two answers of the handler *)

(** Status 200 with the three headers of a served file and its bytes. *)
Definition ok_response (name : string) (content : list byte) : response :=
  mkResponse (Some 200)
    [("Content-type", HStr "application/octet-stream");
     ("Content-disposition", HStr (inline_filename name));
     ("Content-length", HInt (Z.of_nat (List.length content)))]
    content.

(** Status 404, no header of the handler's own, no body. *)
Definition not_found : response := mkResponse (Some 404) [] [].

(** ** Landmarks of a run of [put] *)

(** The world when the [try] is entered: the server is bound and
    configured, the token has been printed if [put] made it up, and the
    zeroconf object is new. *)
Definition listening (env : environment) (filename : string)
    (token : option string) (port : option Z) (reporthook : option hook)
    (timeout : option Z) : world :=
  mkWorld
    (mkServer false (snd (prepare_token env token)) filename
              (Path.basename filename) reporthook timeout
              (bound_port env (port_or_default env port)) Listening)
    Zeroconf_new None [] [] (arrivals env)
    match token with
    | None =>
        [(filename ++ " is now available on the network")%string;
         ("Ask your friend to 'zget " ++ fst (prepare_token env token)
            ++ snd (prepare_token env token) ++ "'")%string]
    | Some _ => []
    end
    [].

(** The world after the three statements of the teardown, [i] being the
    value of [info]. *)
Definition after_teardown (i : ServiceInfo) (w : world) : world :=
  mkWorld (set_socket Closed (server w))
          (zc_close (zc_unregister i (zeroconf w)))
          (Some i) (answered w) (calls w) (pending w) (stdout w) (stderr w).

(** What the last statement of [put] makes of the [downloaded] flag. *)
Definition final_outcome (timeout : option Z) (downloaded : bool) : outcome unit :=
  match timeout with
  | Some _ => if negb downloaded then Raises TimeoutException else Returns tt
  | None => Returns tt
  end.

(** [info] assigned, then the record registered: the world after one turn
    of the announcing loop that succeeds. *)
Definition registered (i : ServiceInfo) (w : world) : world :=
  with_zeroconf (zc_register i) (with_info i w).

(** A property of the world that a computation keeps, however it ends. *)
Definition stable (I : world -> Prop) {A} (m : M A) : Prop :=
  forall w, I w -> I (snd (m w)).

(** What holds from the moment the server listens until the teardown: the
    socket is open on port [p], the zeroconf object is open and every
    record it has announced carries [p]. *)
Definition serving (p : Z) (w : world) : Prop :=
  socket (server w) = Listening /\
  server_port (server w) = p /\
  closed (zeroconf w) = false /\
  forall i, In i (announced (zeroconf w)) -> port i = p.

(** The world in which the server starts to wait when both registrations
    have succeeded, [packed] being the packed address. *)
Definition announced_world (env : environment) (filename : string)
    (token : option string) (port : option Z) (reporthook : option hook)
    (timeout : option Z) (packed : list byte) : world :=
  let p := bound_port env (port_or_default env port) in
  registered
    (record_for packed p (sha1_hexdigest env (Path.basename filename)))
    (registered (record_for packed p (fst (prepare_token env token)))
                (listening env filename token port reporthook timeout)).

(** ** Separators *)

(** ['/' in p]: whether a path holds a separator. *)
Fixpoint contains_sep (p : string) : bool :=
  match p with
  | EmptyString => false
  | String c p' => Ascii.eqb c Path.sep || contains_sep p'
  end.

(** ** validate_address *)

(** The [argparse.ArgumentTypeError] of [validate_address], with its
    message. *)
Inductive ArgumentTypeError : Type := mkArgumentTypeError (msg : string).

(** [validate_address]: the address as it came when [socket.inet_aton]
    packs it, the error naming the address when [socket.inet_aton] raises
    its [socket.error]. *)
Definition validate_address (env : environment) (address : string)
  : ArgumentTypeError + string :=
  match inet_aton env address with
  | Some _ => inr address
  | None =>
      inl (mkArgumentTypeError (address ++ " is not a valid IP address")%string)
  end.

(** ** cli

    The command line, from the namespace [parser.parse_args] returns.
    [utils.enable_logger] sets up the log nobody observes.  The object
    [utils.Progresshook(args.input)] yields on entering its [with] is the
    progress hook handed to [put]; an exception passes through the [with]
    unchanged. *)

Record arguments : Type := mkArgs {
  arg_port : option Z;
  arg_address : option string;
  arg_interface : option string;
  arg_verbose : Z;
  arg_quiet : Z;
  arg_timeout : option Z;
  arg_input : string;
  arg_token : option string
}.

(** What the [try] of [cli] can raise: the two [ValueError]s of its own
    checks, and whatever [put] raises. *)
Inductive cli_error : Type :=
| FileDoesNotExist (input : string)
| AddressAndInterface
| FromPut (e : exn).

(** How [cli] ends: it returns; it leaves through [sys.exit]; an
    exception leaves it; the handler itself fails with an [AttributeError]
    on reading [e.message]; or [put] waits for ever. *)
Inductive cli_outcome : Type :=
| Finished
| SystemExit (code : Z)
| Propagated (e : cli_error)
| AttributeError (e : cli_error)
| Waiting.

(** The truth value of an optional string in a condition: [None] and the
    empty string are false. *)
Definition truthy (s : option string) : bool :=
  match s with
  | Some s => negb (String.eqb s "")
  | None => false
  end.

(** Whether [except Exception] catches it: of the exceptions of the model
    only [KeyboardInterrupt] is not an [Exception]. *)
Definition is_Exception (e : cli_error) : bool :=
  match e with
  | FromPut KeyboardInterrupt => false
  | _ => true
  end.

(** [except Exception as e: if args.verbose: raise], then
    [utils.logger.error(e.message)] and [sys.exit(1)].  [has_message] says
    whether the exception has the attribute [message]: every exception has
    it under Python 2, the built-in ones do not under Python 3. *)
Definition cli_except (has_message : cli_error -> bool) (verbose : Z)
    (e : cli_error) : cli_outcome :=
  if is_Exception e then
    if negb (verbose =? 0) then Propagated e
    else if has_message e then SystemExit 1
    else AttributeError e
  else Propagated e.

(** [isfile] stands for [os.path.isfile]. *)
Definition cli (env : environment) (isfile : string -> bool)
    (has_message : cli_error -> bool) (args : arguments)
  : cli_outcome * world :=
  if negb (isfile (arg_input args)) then
    (cli_except has_message (arg_verbose args)
                (FileDoesNotExist (arg_input args)),
     initial env)
  else if truthy (arg_interface args) && truthy (arg_address args) then
    (cli_except has_message (arg_verbose args) AddressAndInterface,
     initial env)
  else
    let progress := ProgressHook in
    match run env (arg_input args) (arg_token args) (arg_interface args)
              (arg_address args) (arg_port args)
              (if arg_quiet args =? 0 then Some progress else None)
              (arg_timeout args) with
    | (Returns _, w) => (Finished, w)
    | (Raises e, w) => (cli_except has_message (arg_verbose args) (FromPut e), w)
    | (Blocks, w) => (Waiting, w)
    end.

(** ** The ways a run of [put] ends *)

Section Ends.

Variables (env : environment) (filename : string).
Variables (token interface address : option string) (port : option Z).
Variables (reporthook : option hook) (timeout : option Z).

Local Abbreviation start := (listening env filename token port reporthook timeout).
Local Abbreviation the_port := (bound_port env (port_or_default env port)).
Local Abbreviation broadcast packed :=
  (record_for packed the_port (fst (prepare_token env token))).
Local Abbreviation hashed packed :=
  (record_for packed the_port (sha1_hexdigest env (Path.basename filename))).
Local Abbreviation waiting packed :=
  (announced_world env filename token port reporthook timeout packed).

(** Each constructor is one path through [put]: the outcome and the world
    it leaves.  In order: the port is out of range; [socket.inet_aton]
    fails; the first registration raises an error, or is interrupted; the
    second registration raises an error, or is interrupted; nothing
    arrives, with and without a timeout; the wait is interrupted; a request
    is handled. *)
Inductive put_ends : outcome unit -> world -> Prop :=
| ends_out_of_range :
    in_port_range (port_or_default env port) = false ->
    put_ends (Raises (ValueError "Port %d exceeds allowed range"
                                 (port_or_default env port)))
             (initial env)
| ends_not_an_address :
    in_port_range (port_or_default env port) = true ->
    inet_aton env (address_or_default env interface address) = None ->
    put_ends (Raises socket_error) start
| ends_first_fails packed e :
    in_port_range (port_or_default env port) = true ->
    inet_aton env (address_or_default env interface address) = Some packed ->
    register_outcome env (broadcast packed) = Some e ->
    e <> KeyboardInterrupt ->
    put_ends (Raises e) (with_info (broadcast packed) start)
| ends_first_interrupted packed :
    in_port_range (port_or_default env port) = true ->
    inet_aton env (address_or_default env interface address) = Some packed ->
    register_outcome env (broadcast packed) = Some KeyboardInterrupt ->
    put_ends (final_outcome timeout false)
             (after_teardown (broadcast packed)
                             (with_info (broadcast packed) start))
| ends_second_fails packed e :
    in_port_range (port_or_default env port) = true ->
    inet_aton env (address_or_default env interface address) = Some packed ->
    register_outcome env (broadcast packed) = None ->
    register_outcome env (hashed packed) = Some e ->
    e <> KeyboardInterrupt ->
    put_ends (Raises e)
             (with_info (hashed packed) (registered (broadcast packed) start))
| ends_second_interrupted packed :
    in_port_range (port_or_default env port) = true ->
    inet_aton env (address_or_default env interface address) = Some packed ->
    register_outcome env (broadcast packed) = None ->
    register_outcome env (hashed packed) = Some KeyboardInterrupt ->
    put_ends (final_outcome timeout false)
             (after_teardown (hashed packed)
                (with_info (hashed packed)
                           (registered (broadcast packed) start)))
| ends_timed_out packed t :
    in_port_range (port_or_default env port) = true ->
    inet_aton env (address_or_default env interface address) = Some packed ->
    register_outcome env (broadcast packed) = None ->
    register_outcome env (hashed packed) = None ->
    arrivals env = [] ->
    timeout = Some t ->
    put_ends (Raises TimeoutException)
             (after_teardown (hashed packed) (waiting packed))
| ends_never packed :
    in_port_range (port_or_default env port) = true ->
    inet_aton env (address_or_default env interface address) = Some packed ->
    register_outcome env (broadcast packed) = None ->
    register_outcome env (hashed packed) = None ->
    arrivals env = [] ->
    timeout = None ->
    put_ends Blocks (waiting packed)
| ends_wait_interrupted packed rest :
    in_port_range (port_or_default env port) = true ->
    inet_aton env (address_or_default env interface address) = Some packed ->
    register_outcome env (broadcast packed) = None ->
    register_outcome env (hashed packed) = None ->
    arrivals env = Interrupt :: rest ->
    put_ends (final_outcome timeout false)
             (after_teardown (hashed packed)
                             (with_pending rest (waiting packed)))
| ends_handled packed path rest h :
    in_port_range (port_or_default env port) = true ->
    inet_aton env (address_or_default env interface address) = Some packed ->
    register_outcome env (broadcast packed) = None ->
    register_outcome env (hashed packed) = None ->
    arrivals env = Request path :: rest ->
    do_GET (fs env) path (mkH (server (waiting packed)) no_response [])
    = (h, None) ->
    put_ends (final_outcome timeout (downloaded (h_server h)))
             (after_teardown (hashed packed) (handled h rest (waiting packed)))
| ends_handler_failed packed path rest h e :
    in_port_range (port_or_default env port) = true ->
    inet_aton env (address_or_default env interface address) = Some packed ->
    register_outcome env (broadcast packed) = None ->
    register_outcome env (hashed packed) = None ->
    arrivals env = Request path :: rest ->
    do_GET (fs env) path (mkH (server (waiting packed)) no_response [])
    = (h, Some e) ->
    put_ends (final_outcome timeout (downloaded (h_server h)))
             (after_teardown (hashed packed)
                (with_stderr e (handled h rest (waiting packed)))).

End Ends.

(** The ways a handler ends, from a server [s] and the calls [cs] made to
    the hook so far: the path is rejected; the file cannot be opened; the
    file is served. *)
Inductive do_GET_ends (fs : filesystem) (path : string) (s : StateHTTPServer)
    (cs : list hook_call) : handler_state -> option exn -> Prop :=
| get_rejected :
    accepted s path = false ->
    do_GET_ends fs path s cs (mkH s not_found cs)
                (Some (RuntimeError "Invalid request received. Aborting."))
| get_unreadable :
    accepted s path = true ->
    fs (Path.join_curdir (filename s)) = None ->
    do_GET_ends fs path s cs (mkH s no_response cs)
                (Some (IOError (Path.join_curdir (filename s))))
| get_served content new :
    accepted s path = true ->
    fs (Path.join_curdir (filename s)) = Some content ->
    (reporthook s = None -> new = []) ->
    do_GET_ends fs path s cs
                (mkH (set_downloaded true s)
                     (ok_response (Path.basename (filename s)) content)
                     (cs ++ new))
                None.

(** ** The handler on a connection that can fail

    [do_GET] above is the handler on a connection that never fails it.
    Two things can fail a handler on a real one.  [send_header] encodes the
    header it is given in latin-1, strictly, and raises
    [UnicodeEncodeError] on a value it cannot encode; the status line and
    the headers are buffered until [end_headers], so nothing has reached
    the peer by then.  And the peer can reset the connection, upon which
    the write that meets the reset raises [socket.error]; the writes are
    the flush of the buffered status line and headers by [end_headers],
    then one [wfile.write] for each chunk. *)

(** [encodes v]: latin-1 can encode the header value [v].  [resets_after]:
    the number of writes the peer takes before it resets the connection,
    [None] when it takes them all. *)
Record connection : Type := mkConnection {
  encodes : string -> bool;
  resets_after : option nat
}.

(** Whether every character of a string is below 128: what every
    encoding of a header encodes. *)
Fixpoint ascii_only (s : string) : bool :=
  match s with
  | EmptyString => true
  | String c s' => (nat_of_ascii c <? 128)%nat && ascii_only s'
  end.

(** The loop of [do_GET] on a peer that takes [budget] more writes.  It ends
    with the exception of the write that met the reset, if one did; what
    the peer received of that write is not recorded. *)
Fixpoint send_loop_on (fuel : nat) (budget : option nat) (fh : list byte)
    (i maxsize : Z) (h : handler_state)
  : option (handler_state * option exn) :=
  match fuel with
  | O => None
  | S fuel' =>
      match firstn (Z.to_nat chunksize) fh with
      | [] => Some (h, None)
      | data =>
          match budget with
          | Some O => Some (h, Some socket_error)
          | _ =>
              send_loop_on fuel' (option_map Nat.pred budget)
                           (skipn (Z.to_nat chunksize) fh) (i + 1) maxsize
                           (call_hook i maxsize (write_chunk data h))
          end
      end
  end.

(** [do_GET] on the connection [c].  In the accepted branch the file is
    opened first; the status and the first header are buffered; the value
    of [Content-disposition] is encoded, or the handler ends there with
    nothing sent; [end_headers] makes the first write; the loop makes the
    others, and [downloaded] is set only when the loop has ended without
    an exception.  In the other branch [end_headers] makes the only
    write. *)
Definition do_GET_on (c : connection) (fs : filesystem) (path : string)
    (h : handler_state) : handler_state * option exn :=
  if accepted (h_server h) path then
    let full_path := Path.join_curdir (filename (h_server h)) in
    match fs full_path with
    | None => (h, Some (IOError full_path))
    | Some content =>
        let maxsize := Z.of_nat (List.length content) in
        let disposition :=
          inline_filename (Path.basename (filename (h_server h))) in
        if negb (encodes c disposition) then
          (h, Some (UnicodeEncodeError disposition))
        else
          match resets_after c with
          | Some O => (h, Some socket_error)
          | budget =>
              let h1 := map_out (send_response 200) h in
              let h2 := map_out (send_header "Content-type"
                                   (HStr "application/octet-stream")) h1 in
              let h3 := map_out (send_header "Content-disposition"
                                   (HStr disposition)) h2 in
              let h4 := map_out (send_header "Content-length" (HInt maxsize)) h3 in
              match send_loop_on (S (List.length content))
                                 (option_map Nat.pred budget) content 0 maxsize h4 with
              | None => (h4, None)
              | Some (h5, Some e) => (h5, Some e)
              | Some (h5, None) =>
                  (mkH (set_downloaded true (h_server h5)) (h_out h5) (h_calls h5),
                   None)
              end
          end
    end
  else
    match resets_after c with
    | Some O => (h, Some socket_error)
    | _ =>
        (map_out (send_response 404) h,
         Some (RuntimeError "Invalid request received. Aborting."))
    end.

(** [handle_request] when the connection of the request it accepts is
    [c]. *)
Definition handle_request_on (c : connection) (env : environment) : M unit :=
  fun w =>
    match pending w with
    | [] =>
        match timeout (server w) with
        | Some _ => (Returns tt, w)
        | None => (Blocks, w)
        end
    | Interrupt :: rest => (Raises KeyboardInterrupt, with_pending rest w)
    | Request path :: rest =>
        match do_GET_on c (fs env) path (mkH (server w) no_response (calls w)) with
        | (h, None) => (Returns tt, handled h rest w)
        | (h, Some e) => (Returns tt, with_stderr e (handled h rest w))
        end
    end.

(** [put] when the connection of the request it serves is [c]: [put] with
    [handle_request_on c] for [handle_request]. *)
Definition put_on (c : connection) (env : environment) (filename : string)
    (token interface address : option string) (port : option Z)
    (reporthook : option hook) (timeout : option Z) : M unit :=
  let port := port_or_default env port in
  if negb (in_port_range port) then
    raise (ValueError "Port %d exceeds allowed range" port)
  else
    let basename := Path.basename filename in
    let filehash := sha1_hexdigest env basename in
    let '(broadcast_token, secret_token) := prepare_token env token in
    let address := address_or_default env interface address in
    modify (with_server (fun _ =>
      mkServer false secret_token filename basename reporthook timeout
               (bound_port env port) Listening)) ;;
    port <- gets (fun w => server_port (server w)) ;;
    match token with
    | None =>
        modify (with_stdout (filename ++ " is now available on the network")%string) ;;
        modify (with_stdout ("Ask your friend to 'zget " ++ broadcast_token
                               ++ secret_token ++ "'")%string)
    | Some _ => ret tt
    end ;;
    modify (with_zeroconf (fun _ => Zeroconf_new)) ;;
    try_except_KeyboardInterrupt
      (for_each [broadcast_token; filehash] (announce env address port) ;;
       handle_request_on c env) ;;
    teardown ;;
    verdict timeout.

Definition run_on (c : connection) (env : environment) (filename : string)
    (token interface address : option string) (port : option Z)
    (reporthook : option hook) (timeout : option Z) : outcome unit * world :=
  put_on c env filename token interface address port reporthook timeout
         (initial env).

(** * Properties *)

(** ** The token codec *)

Lemma draw_length (random : nat -> ascii) (n k : nat) :
  String.length (TokenCodec.draw random k n) = n.
Proof.
  revert k; induction n as [|n IH]; intros k; cbn; [reflexivity|].
  now rewrite IH.
Qed.

Lemma substring_whole (s : string) : substring 0 (String.length s) s = s.
Proof.
  induction s as [|c s IH]; cbn; [reflexivity|]. now rewrite IH.
Qed.

Lemma substring_cut (a b : nat) (s : string) :
  String.length s = (a + b)%nat ->
  (substring 0 a s ++ substring a b s)%string = s.
Proof.
  revert s; induction a as [|a IH]; intros s Hlen.
  - cbn in Hlen. subst b.
    rewrite substring_whole. destruct s; reflexivity.
  - destruct s as [|c s]; [discriminate|].
    cbn in Hlen. injection Hlen as Hlen.
    cbn. now rewrite IH.
Qed.

(** C3.  Splitting a generated token and combining the two fragments gives
    the token back, for every token that [generate] produces, whatever the random source and the agreed lengths. *)
Theorem combine_split_generate (broadcast_length secret_length : nat)
    (random : nat -> ascii) :
  let t := TokenCodec.generate broadcast_length secret_length random in
  let fragments := TokenCodec.split broadcast_length secret_length t in
  TokenCodec.combine broadcast_length secret_length
                     (fst fragments) (snd fragments) = inr t.
Proof.
  cbv zeta. unfold TokenCodec.combine, TokenCodec.split, TokenCodec.generate.
  cbn [fst snd].
  rewrite substring_cut by apply draw_length.
  now rewrite draw_length, Nat.eqb_refl.
Qed.

(** ** The handler *)

Lemma chunk_positive : (0 < Z.to_nat chunksize)%nat.
Proof. unfold chunksize. lia. Qed.

Lemma firstn_nil_inv {A} (n : nat) (l : list A) :
  (0 < n)%nat -> firstn n l = [] -> l = [].
Proof.
  intros Hn H. destruct n; [lia|]. destruct l; [reflexivity|discriminate].
Qed.

(** The loop ends within [length fh + 1] iterations; it leaves the server,
    the status and the headers alone and appends what was left of the file
    to the body. *)
Lemma send_loop_terminates (fuel : nat) :
  forall fh i m h,
    (List.length fh < fuel)%nat ->
    exists h',
      send_loop fuel fh i m h = Some h' /\
      h_server h' = h_server h /\
      status (h_out h') = status (h_out h) /\
      headers (h_out h') = headers (h_out h) /\
      body (h_out h') = body (h_out h) ++ fh.
Proof.
  induction fuel as [|fuel IH]; intros fh i m h Hfuel; [lia|].
  cbn [send_loop].
  destruct (firstn (Z.to_nat chunksize) fh) as [|b data] eqn:Hread.
  - apply firstn_nil_inv in Hread; [|apply chunk_positive]. subst fh.
    exists h. rewrite app_nil_r. repeat split; reflexivity.
  - assert (Hrest : (List.length (skipn (Z.to_nat chunksize) fh) < fuel)%nat).
    { rewrite length_skipn. pose proof chunk_positive.
      destruct fh; [rewrite firstn_nil in Hread; discriminate|].
      cbn [List.length] in *. lia. }
    destruct (IH (skipn (Z.to_nat chunksize) fh) (i + 1) m
                 (call_hook i m (write_chunk (b :: data) h)) Hrest)
      as (h' & Hrun & Hsrv & Hst & Hhd & Hbody).
    exists h'. split; [exact Hrun|].
    assert (Hstep : h_server (call_hook i m (write_chunk (b :: data) h)) = h_server h
                    /\ h_out (call_hook i m (write_chunk (b :: data) h))
                       = wfile_write (b :: data) (h_out h)).
    { unfold call_hook, write_chunk; cbn.
      destruct (reporthook (h_server h)); cbn; split; reflexivity. }
    destruct Hstep as [Hs Ho].
    rewrite Hsrv, Hst, Hhd, Hbody, Hs, Ho. cbn.
    repeat split; try reflexivity.
    rewrite <- app_assoc, <- Hread, firstn_skipn. reflexivity.
Qed.

Lemma accepted_iff (s : StateHTTPServer) (path : string) :
  accepted s path = true <->
  path = ("/" ++ token s)%string \/ path = ("/" ++ basename s)%string.
Proof.
  unfold accepted. rewrite orb_true_iff, !String.eqb_eq. reflexivity.
Qed.

(** What an accepted request for a readable file produces: no exception,
    the [downloaded] flag set, and the response made of the status, the
    three headers and the whole file. *)
Lemma do_GET_accepted (fs : filesystem) (s : StateHTTPServer)
    (cs : list hook_call) (path : string) (content : list byte) :
  accepted s path = true ->
  fs (Path.join_curdir (filename s)) = Some content ->
  exists h',
    do_GET fs path (mkH s no_response cs) = (h', None) /\
    h_server h' = set_downloaded true s /\
    h_out h' = ok_response (Path.basename (filename s)) content.
Proof.
  intros Hacc Hfs. unfold do_GET. cbn [h_server]. rewrite Hacc, Hfs.
  match goal with
  | |- context [send_loop ?f ?fh ?i ?m ?h] =>
      destruct (send_loop_terminates f fh i m h (Nat.lt_succ_diag_r _))
        as (h5 & Hrun & Hsrv & Hst & Hhd & Hbody)
  end.
  rewrite Hrun. eexists. split; [reflexivity|]. cbn [h_server h_out].
  split; [now rewrite Hsrv|].
  destruct (h_out h5) as [st hd bd]. cbn in Hst, Hhd, Hbody. subst.
  reflexivity.
Qed.

Lemma do_GET_rejected (fs : filesystem) (s : StateHTTPServer)
    (cs : list hook_call) (path : string) :
  accepted s path = false ->
  do_GET fs path (mkH s no_response cs)
  = (mkH s not_found cs, Some (RuntimeError "Invalid request received. Aborting.")).
Proof.
  intros Hacc. unfold do_GET. cbn [h_server]. rewrite Hacc. reflexivity.
Qed.

(** On a peer that takes every write the loop is the loop of [do_GET]. *)
Lemma send_loop_on_patient (fuel : nat) :
  forall fh i m h,
    send_loop_on fuel None fh i m h
    = option_map (fun h' => (h', None)) (send_loop fuel fh i m h).
Proof.
  induction fuel as [|fuel IH]; intros fh i m h; [reflexivity|].
  cbn [send_loop_on send_loop option_map].
  destruct (firstn (Z.to_nat chunksize) fh); [reflexivity|]. apply IH.
Qed.

(** On a connection that encodes the [Content-disposition] of the file
    and whose peer takes every write, the handler is [do_GET]. *)
Lemma do_GET_on_sound (c : connection) (fs : filesystem) (path : string)
    (h : handler_state) :
  resets_after c = None ->
  encodes c (inline_filename (Path.basename (filename (h_server h)))) = true ->
  do_GET_on c fs path h = do_GET fs path h.
Proof.
  intros Hpeer Henc. unfold do_GET_on, do_GET. rewrite Hpeer, Henc.
  cbn [negb option_map].
  destruct (accepted (h_server h) path); [|reflexivity].
  destruct (fs (Path.join_curdir (filename (h_server h)))) as [content|];
    [|reflexivity].
  rewrite send_loop_on_patient.
  match goal with
  | |- context [send_loop ?f ?fh ?i ?m ?h0] => destruct (send_loop f fh i m h0)
  end; reflexivity.
Qed.



(** Outside those conditions the handler serves nothing: a
    [Content-disposition] that cannot be encoded ends it before anything
    is sent, and a peer that resets the connection ends it where the reset
    is met; [downloaded] stays as it was. *)
Example unencodable_name_not_served :
  let s := mkServer false "cd" "notes.txt" "notes.txt" None None 49152
                    Listening in
  do_GET_on (mkConnection (fun _ => false) None) Sample.files "/cd"
            (mkH s no_response [])
  = (mkH s no_response [],
     Some (UnicodeEncodeError
             ("inline; filename="
                ++ String "034" ("notes.txt" ++ String "034" ""))%string))
  /\ do_GET_on (mkConnection ascii_only (Some 1%nat)) Sample.files "/cd"
               (mkH s no_response [])
     = (mkH s
            (mkResponse (Some 200)
               [("Content-type", HStr "application/octet-stream");
                ("Content-disposition",
                 HStr ("inline; filename="
                         ++ String "034" ("notes.txt" ++ String "034" ""))%string);
                ("Content-length", HInt 4)]
               [])
            [],
        Some socket_error).
Proof. split; reflexivity. Qed.

(** ** The progress hook *)

(** The calls the loop makes to a configured hook: the [j]-th of them
    carries the index [i + j], the chunk size and [m], and is made when
    [j + 1] chunks of [fh] are on the wire; there are as many calls as [fh]
    has chunks. *)
Lemma send_loop_calls (fuel : nat) :
  forall fh i m h h' hk,
    reporthook (h_server h) = Some hk ->
    send_loop fuel fh i m h = Some h' ->
    exists new,
      h_calls h' = h_calls h ++ new /\
      Z.of_nat (List.length fh) <= Z.of_nat (List.length new) * chunksize
        < Z.of_nat (List.length fh) + chunksize /\
      forall j c,
        nth_error new j = Some c ->
        blocknum c = i + Z.of_nat j /\
        blocksize c = chunksize /\
        totalsize c = m /\
        sent c = Z.of_nat (List.length (body (h_out h)))
                 + Z.min ((Z.of_nat j + 1) * chunksize) (Z.of_nat (List.length fh)).
Proof.
  induction fuel as [|fuel IH]; intros fh i m h h' hk Hhook Hrun; [discriminate|].
  cbn [send_loop] in Hrun.
  destruct (firstn (Z.to_nat chunksize) fh) as [|b data] eqn:Hread.
  - apply firstn_nil_inv in Hread; [|apply chunk_positive]. subst fh.
    injection Hrun as <-. exists []. rewrite app_nil_r.
    split; [reflexivity|]. split; [cbn; unfold chunksize; lia|].
    intros [|j] c Hc; discriminate.
  - rewrite <- Hread in Hrun.
    set (data' := firstn (Z.to_nat chunksize) fh) in *.
    assert (Hlen : List.length data' = Nat.min (Z.to_nat chunksize) (List.length fh))
      by apply length_firstn.
    assert (Hne : (0 < List.length data')%nat)
      by (rewrite Hread; cbn; lia).
    set (h1 := call_hook i m (write_chunk data' h)) in *.
    assert (Hs1 : h_server h1 = h_server h)
      by (unfold h1, call_hook, write_chunk; cbn; rewrite Hhook; reflexivity).
    assert (Hb1 : body (h_out h1) = body (h_out h) ++ data')
      by (unfold h1, call_hook, write_chunk; cbn; rewrite Hhook; reflexivity).
    assert (Hc1 : h_calls h1 = h_calls h ++
              [mkCall i chunksize m
                 (Z.of_nat (List.length (body (h_out h) ++ data')))])
      by (unfold h1, call_hook, write_chunk; cbn; rewrite Hhook; reflexivity).
    assert (Hhook1 : reporthook (h_server h1) = Some hk) by now rewrite Hs1.
    destruct (IH _ _ _ _ _ hk Hhook1 Hrun) as (new & Hcalls & Hcount & Hnth).
    rewrite length_skipn in Hcount, Hnth.
    exists (mkCall i chunksize m
              (Z.of_nat (List.length (body (h_out h) ++ data'))) :: new).
    split; [rewrite Hcalls, Hc1, <- app_assoc; reflexivity|].
    unfold chunksize in *. cbn [List.length]. split; [lia|].
    intros [|j] c Hc.
    + injection Hc as <-. cbn [blocknum blocksize totalsize sent].
      rewrite length_app. repeat split; lia.
    + cbn [nth_error] in Hc. destruct (Hnth j c Hc) as (Hn & Hbs & Hts & Hsent).
      rewrite Hb1, length_app in Hsent. repeat split; lia.
Qed.

(** C9.  When a file of [N] bytes is served with a progress hook
    configured, the hook is called once per chunk written: the [j]-th call
    (from 0) receives [(j, 1024 * 8, N)] and is made right after the
    [j + 1]-th chunk was written.  The number of calls times the chunk size
    is at least [N] and less than [N] plus one chunk size.  When the last
    call is made all [N] bytes have been written; the index it receives is
    the number of calls less one. *)
Theorem reporthook_calls (fs : filesystem) (s : StateHTTPServer)
    (path : string) (content : list byte) (hk : hook) :
  accepted s path = true ->
  fs (Path.join_curdir (filename s)) = Some content ->
  reporthook s = Some hk ->
  let cs := h_calls (fst (do_GET fs path (mkH s no_response []))) in
  let N := Z.of_nat (List.length content) in
  (forall j c,
      nth_error cs j = Some c ->
      blocknum c = Z.of_nat j /\ blocksize c = chunksize /\ totalsize c = N /\
      sent c = Z.min ((Z.of_nat j + 1) * chunksize) N)
  /\ N <= Z.of_nat (List.length cs) * chunksize < N + chunksize
  /\ (forall before c,
         cs = before ++ [c] ->
         sent c = N /\ blocknum c = Z.of_nat (List.length cs) - 1).
Proof.
  intros Hacc Hfs Hhook cs N.
  assert (Hspec :
    (forall j c,
      nth_error cs j = Some c ->
      blocknum c = Z.of_nat j /\ blocksize c = chunksize /\ totalsize c = N /\
      sent c = Z.min ((Z.of_nat j + 1) * chunksize) N)
    /\ N <= Z.of_nat (List.length cs) * chunksize < N + chunksize).
  { subst cs. unfold do_GET. cbn [h_server]. rewrite Hacc, Hfs.
    match goal with
    | |- context [send_loop ?f ?fh ?i ?m ?h] =>
        destruct (send_loop_terminates f fh i m h (Nat.lt_succ_diag_r _))
          as (h5 & Hrun & _);
        destruct (send_loop_calls f fh i m h h5 hk Hhook Hrun)
          as (new & Hcalls & Hcount & Hnth)
    end.
    rewrite Hrun. cbn [fst h_calls]. rewrite Hcalls. cbn [h_calls map_out app].
    split; [|exact Hcount].
    intros j c Hc. destruct (Hnth j c Hc) as (Hn & Hbs & Hts & Hsent).
    cbn in Hsent. fold N in Hsent. repeat split; try assumption; lia. }
  destruct Hspec as [Hnth Hcount]. split; [exact Hnth|]. split; [exact Hcount|].
  intros before c Hlast.
  assert (Hc : nth_error cs (List.length before) = Some c)
    by (rewrite Hlast, nth_error_app2, Nat.sub_diag by lia; reflexivity).
  destruct (Hnth _ _ Hc) as (Hn & _ & _ & Hsent).
  assert (Hlen : List.length cs = S (List.length before))
    by (rewrite Hlast, length_app; cbn; lia).
  rewrite Hlen in *. unfold chunksize in *. lia.
Qed.

Lemma reporthook_calls_witness :
  let cs := h_calls (fst (do_GET Sample.long_files "/long.bin"
                            (mkH Sample.long_srv no_response []))) in
  List.length cs = 2%nat /\
  forall before c, cs = before ++ [c] -> sent c = chunksize + 1.
Proof.
  pose proof (reporthook_calls Sample.long_files Sample.long_srv "/long.bin"
                Sample.long_content ProgressHook eq_refl eq_refl eq_refl) as H.
  cbv zeta in *. destruct H as (_ & Hcount & Hlast).
  split.
  - vm_compute. reflexivity.
  - intros before c Hcs. destruct (Hlast before c Hcs) as [Hsent _].
    rewrite Hsent. vm_compute. reflexivity.
Defined.

(** ** The life of [put] *)

(** With a port in range, [put] is the [try], the teardown and the verdict,
    run from [listening]. *)
Lemma run_in_range (env : environment) (filename : string)
    (token interface address : option string) (port : option Z)
    (reporthook : option hook) (timeout : option Z) :
  in_port_range (port_or_default env port) = true ->
  run env filename token interface address port reporthook timeout
  = (try_except_KeyboardInterrupt
       (announce_and_serve env (address_or_default env interface address)
          (bound_port env (port_or_default env port))
          (fst (prepare_token env token))
          (sha1_hexdigest env (Path.basename filename))) ;;
     teardown ;; verdict timeout)
      (listening env filename token port reporthook timeout).
Proof.
  intros Hport. unfold run, put, listening. rewrite Hport. cbv beta iota zeta.
  unfold negb.
  destruct (prepare_token env token) as [b s]. cbn [fst snd].
  destruct token; reflexivity.
Qed.

Lemma run_out_of_range (env : environment) (filename : string)
    (token interface address : option string) (port : option Z)
    (reporthook : option hook) (timeout : option Z) :
  in_port_range (port_or_default env port) = false ->
  run env filename token interface address port reporthook timeout
  = (Raises (ValueError "Port %d exceeds allowed range" (port_or_default env port)),
     initial env).
Proof.
  intros Hport. unfold run, put. rewrite Hport. reflexivity.
Qed.

(** The teardown and the verdict, once [info] is bound. *)
Lemma teardown_verdict (timeout : option Z) (i : ServiceInfo) (w : world) :
  info w = Some i ->
  (teardown ;; verdict timeout) w
  = (final_outcome timeout (downloaded (server w)), after_teardown i w).
Proof.
  intros Hinfo.
  unfold teardown, verdict, unregister_service_info, bind, modify, gets,
    with_server, with_zeroconf.
  cbv beta iota. cbn [info]. rewrite Hinfo. cbv beta iota.
  unfold final_outcome, after_teardown, ret, raise.
  cbn [server zeroconf info answered calls pending stdout stderr
       downloaded set_socket].
  destruct timeout; [destruct (downloaded (server w))|]; cbn [negb];
    reflexivity.
Qed.

(** What follows the [try], by the way its body ends. *)
Lemma after_try (m : M unit) (timeout : option Z) (w : world) :
  (try_except_KeyboardInterrupt m ;; teardown ;; verdict timeout) w
  = match m w with
    | (Returns _, w1) => (teardown ;; verdict timeout) w1
    | (Raises KeyboardInterrupt, w1) => (teardown ;; verdict timeout) w1
    | (Raises e, w1) => (Raises e, w1)
    | (Blocks, w1) => (Blocks, w1)
    end.
Proof.
  unfold bind at 1. unfold try_except_KeyboardInterrupt.
  destruct (m w) as [[[]|e|] w1]; [reflexivity| |reflexivity].
  destruct e; reflexivity.
Qed.

(** *** Invariants *)

Lemma stable_ret (I : world -> Prop) {A} (a : A) : stable I (ret a).
Proof. intros w Hw. exact Hw. Qed.

Lemma stable_raise (I : world -> Prop) {A} (e : exn) : stable I (@raise A e).
Proof. intros w Hw. exact Hw. Qed.

Lemma stable_modify (I : world -> Prop) (f : world -> world) :
  (forall w, I w -> I (f w)) -> stable I (modify f).
Proof. intros Hf w Hw. apply Hf, Hw. Qed.

Lemma stable_bind (I : world -> Prop) {A B} (m : M A) (k : A -> M B) :
  stable I m -> (forall a, stable I (k a)) -> stable I (bind m k).
Proof.
  intros Hm Hk w Hw. unfold bind. specialize (Hm w Hw).
  destruct (m w) as [[a|e|] w1]; cbn [snd] in *; [|exact Hm|exact Hm].
  apply Hk, Hm.
Qed.

Lemma stable_for_each (I : world -> Prop) {A} (l : list A) (body : A -> M unit) :
  (forall x, stable I (body x)) -> stable I (for_each l body).
Proof.
  intros Hbody. induction l as [|x l IH]; cbn [for_each].
  - apply stable_ret.
  - apply stable_bind; [apply Hbody|]. intros _. exact IH.
Qed.

(** A handler leaves the server as it was, but for the [downloaded] flag. *)
Lemma do_GET_server (fs : filesystem) (path : string) (h : handler_state) :
  exists d, h_server (fst (do_GET fs path h)) = set_downloaded d (h_server h).
Proof.
  assert (Hsame : h_server h = set_downloaded (downloaded (h_server h)) (h_server h))
    by (destruct (h_server h); reflexivity).
  unfold do_GET. destruct (accepted (h_server h) path).
  - destruct (fs (Path.join_curdir (filename (h_server h)))) as [content|].
    + match goal with
      | |- context [send_loop ?f ?fh ?i ?m ?h0] =>
          destruct (send_loop_terminates f fh i m h0 (Nat.lt_succ_diag_r _))
            as (h5 & Hrun & Hsrv & _)
      end.
      rewrite Hrun. cbn [fst h_server]. rewrite Hsrv. cbn [h_server map_out].
      exists true. reflexivity.
    + eexists. exact Hsame.
  - eexists. exact Hsame.
Qed.

(** [handle_request] touches neither the zeroconf object nor [info], and of
    the server only the [downloaded] flag; it returns, is interrupted, or
    waits for ever, the last only with no timeout and nothing arriving. *)
Lemma handle_request_frame (env : environment) (w : world) :
  let r := fst (handle_request env w) in
  let w' := snd (handle_request env w) in
  zeroconf w' = zeroconf w /\
  info w' = info w /\
  (exists d, server w' = set_downloaded d (server w)) /\
  (r = Returns tt \/ r = Raises KeyboardInterrupt
   \/ (r = Blocks /\ timeout (server w) = None /\ pending w = [])).
Proof.
  assert (Hsame : exists d, server w = set_downloaded d (server w))
    by (exists (downloaded (server w)); destruct (server w); reflexivity).
  unfold handle_request. destruct (pending w) as [|[path|] rest].
  - destruct (timeout (server w)); cbn [fst snd]; repeat split; auto.
  - pose proof (do_GET_server (fs env) path (mkH (server w) no_response (calls w)))
      as [d Hd].
    destruct (do_GET (fs env) path (mkH (server w) no_response (calls w)))
      as [h [e|]]; cbn [fst snd h_server] in *;
      (repeat split; [exists d; exact Hd | left; reflexivity]).
  - cbn [fst snd]. repeat split; auto.
Qed.

Lemma serving_set_downloaded (p : Z) (w w' : world) (d : bool) :
  zeroconf w' = zeroconf w ->
  server w' = set_downloaded d (server w) ->
  serving p w -> serving p w'.
Proof.
  intros Hz Hs (H1 & H2 & H3 & H4). unfold serving. rewrite Hz, Hs.
  cbn [socket server_port set_downloaded]. auto.
Qed.

Lemma stable_handle_request (env : environment) (p : Z) :
  stable (serving p) (handle_request env).
Proof.
  intros w Hw.
  destruct (handle_request_frame env w) as (Hz & _ & [d Hs] & _).
  exact (serving_set_downloaded p w _ d Hz Hs Hw).
Qed.

Lemma stable_announce (env : environment) (address : string) (p : Z)
    (alias : string) :
  stable (serving p) (announce env address p alias).
Proof.
  unfold announce. destruct (inet_aton env address) as [packed|];
    [|apply stable_raise].
  apply stable_bind.
  - apply stable_modify. intros w Hw. exact Hw.
  - intros _. unfold register_service.
    destruct (register_outcome env _); [apply stable_raise|].
    apply stable_modify. intros w (H1 & H2 & H3 & H4).
    unfold serving, with_zeroconf, zc_register.
    cbn [server zeroconf announced closed]. repeat split; auto.
    intros i Hi. apply in_app_or in Hi. destruct Hi as [Hi|[<-|[]]]; auto.
Qed.

Lemma stable_announce_and_serve (env : environment) (address : string) (p : Z)
    (b h : string) :
  stable (serving p) (announce_and_serve env address p b h).
Proof.
  unfold announce_and_serve. apply stable_bind.
  - apply stable_for_each. intros alias. apply stable_announce.
  - intros _. apply stable_handle_request.
Qed.

Lemma serving_listening (env : environment) (filename : string)
    (token : option string) (port : option Z) (reporthook : option hook)
    (timeout : option Z) :
  serving (bound_port env (port_or_default env port))
          (listening env filename token port reporthook timeout).
Proof.
  unfold serving, listening. cbn. repeat split; auto. intros i [].
Qed.

(** How a run of [put] with a port in range ends: either the body of the
    [try] raised something other than an interrupt or waits for ever, and
    the world is still [serving]; or [info] was never assigned and the
    teardown stopped after closing the socket; or the teardown and the
    verdict ran on a world that was [serving]. *)
Lemma run_ends (env : environment) (filename : string)
    (token interface address : option string) (port : option Z)
    (reporthook : option hook) (timeout : option Z) :
  in_port_range (port_or_default env port) = true ->
  let p := bound_port env (port_or_default env port) in
  let rw := run env filename token interface address port reporthook timeout in
  (serving p (snd rw) /\ fst rw <> Returns tt /\ fst rw <> Raises TimeoutException
   \/ fst rw = Raises TimeoutException /\ serving p (snd rw))
  \/ (exists w1, serving p w1 /\ info w1 = None /\
                 rw = (Raises (NameError "info"),
                       with_server (set_socket Closed) w1))
  \/ (exists w1 i, serving p w1 /\ info w1 = Some i /\
                   rw = (final_outcome timeout (downloaded (server w1)),
                         after_teardown i w1)).
Proof.
  intros Hport p rw. subst rw. rewrite (run_in_range _ _ _ _ _ _ _ _ Hport).
  rewrite after_try.
  pose proof (stable_announce_and_serve env
                (address_or_default env interface address) p
                (fst (prepare_token env token))
                (sha1_hexdigest env (Path.basename filename))
                _ (serving_listening env filename token port reporthook timeout))
    as Hinv.
  fold p.
  destruct (announce_and_serve _ _ _ _ _ _) as [r1 w1]. cbn [snd] in Hinv.
  assert (Htear : forall i, info w1 = Some i ->
            (teardown ;; verdict timeout) w1
            = (final_outcome timeout (downloaded (server w1)), after_teardown i w1))
    by (intros i Hi; apply teardown_verdict, Hi).
  assert (Hunbound : info w1 = None ->
            (teardown ;; verdict timeout) w1
            = (Raises (NameError "info"), with_server (set_socket Closed) w1)).
  { intros Hi. unfold teardown, unregister_service_info, bind, modify.
    cbv beta iota. unfold with_server at 1. cbn [info]. rewrite Hi. reflexivity. }
  assert (Hfinish :
    (exists w0, serving p w0 /\ info w0 = None /\
       (teardown ;; verdict timeout) w1
       = (Raises (NameError "info"), with_server (set_socket Closed) w0))
    \/ (exists w0 i, serving p w0 /\ info w0 = Some i /\
          (teardown ;; verdict timeout) w1
          = (final_outcome timeout (downloaded (server w0)), after_teardown i w0))).
  { destruct (info w1) as [i|] eqn:Hi.
    - right. exists w1, i. auto.
    - left. exists w1. auto. }
  destruct r1 as [[]|e|].
  - right. exact Hfinish.
  - destruct e; try (left; left; cbn [fst snd];
                     split; [exact Hinv|split; discriminate]).
    + right. exact Hfinish.
    + left. right. cbn [fst snd]. auto.
  - left. left. cbn [fst snd]. split; [exact Hinv|split; discriminate].
Qed.

(** C4.  On a run of [put] that went through the teardown, the result is
    the timeout error exactly when a timeout was configured and the
    [downloaded] flag is false; in every other case [put] returns. *)
Theorem timeout_verdict (env : environment) (filename : string)
    (token interface address : option string) (port : option Z)
    (reporthook : option hook) (timeout : option Z)
    (r : outcome unit) (w : world) :
  run env filename token interface address port reporthook timeout = (r, w) ->
  torn_down w ->
  (r = Raises TimeoutException <->
   timeout <> None /\ downloaded (server w) = false)
  /\ (r <> Raises TimeoutException -> r = Returns tt).
Proof.
  intros Hrun (Hsock & Hclosed & _).
  destruct (in_port_range (port_or_default env port)) eqn:Hport.
  - pose proof (run_ends env filename token interface address port reporthook
                  timeout Hport) as Hends.
    cbv zeta in Hends. rewrite Hrun in Hends. cbn [fst snd] in Hends.
    destruct Hends as [[(Hs & _)|(_ & Hs)]|[(w1 & Hs & _ & Heq)|(w1 & i & Hs & Hi & Heq)]].
    + destruct Hs as (Hl & _). congruence.
    + destruct Hs as (Hl & _). congruence.
    + injection Heq as -> ->. destruct Hs as (_ & _ & Hc & _).
      cbn in Hclosed. congruence.
    + injection Heq as -> ->. cbn [after_teardown server set_socket downloaded].
      unfold final_outcome.
      destruct timeout as [t|]; [destruct (downloaded (server w1))|]; cbn [negb];
        (split; [split; [intros H; try discriminate H; split; congruence
                        | intros [H1 H2]; congruence]
                | intros H; congruence]).
  - rewrite (run_out_of_range _ _ _ _ _ _ _ _ Hport) in Hrun.
    injection Hrun as <- <-. discriminate Hsock.
Qed.

Lemma timeout_verdict_witness :
  let rw := run (Sample.env Sample.all_register []) "notes.txt"
                None None None None None (Some 30) in
  torn_down (snd rw) /\ fst rw = Raises TimeoutException.
Proof.
  cbv zeta.
  assert (Htorn : torn_down (snd (run (Sample.env Sample.all_register [])
                    "notes.txt" None None None None None (Some 30))))
    by (vm_compute; repeat split).
  split; [exact Htorn|].
  apply (timeout_verdict (Sample.env Sample.all_register []) "notes.txt"
           None None None None None (Some 30) _ _ (surjective_pairing _) Htorn).
  split; [discriminate | vm_compute; reflexivity].
Defined.

(** *** The announcing loop *)

(** The two turns of the loop, by the way each registration ends. *)
Lemma announce_loop (env : environment) (address : string) (p : Z)
    (b h : string) (packed : list byte) (w : world) :
  inet_aton env address = Some packed ->
  for_each [b; h] (announce env address p) w
  = match register_outcome env (record_for packed p b) with
    | Some e => (Raises e, with_info (record_for packed p b) w)
    | None =>
        match register_outcome env (record_for packed p h) with
        | Some e =>
            (Raises e,
             with_info (record_for packed p h)
                       (registered (record_for packed p b) w))
        | None =>
            (Returns tt,
             registered (record_for packed p h)
                        (registered (record_for packed p b) w))
        end
    end.
Proof.
  intros Haton. unfold for_each, announce, register_service. rewrite Haton.
  fold (record_for packed p b). fold (record_for packed p h).
  unfold bind, modify, raise, ret, registered.
  destruct (register_outcome env (record_for packed p b)); [reflexivity|].
  destruct (register_outcome env (record_for packed p h)); reflexivity.
Qed.

(** When both registrations succeed, the server waits in this world. *)
Lemma announce_and_serve_registered (env : environment) (address : string)
    (p : Z) (b h : string) (packed : list byte) (w : world) :
  inet_aton env address = Some packed ->
  (forall i, register_outcome env i = None) ->
  announce_and_serve env address p b h w
  = handle_request env
      (registered (record_for packed p h) (registered (record_for packed p b) w)).
Proof.
  intros Haton Hreg. unfold announce_and_serve, bind.
  rewrite (announce_loop env address p b h packed w Haton), !Hreg. reflexivity.
Qed.

Lemma in_filter_or {A} (f : A -> bool) (x : A) (l : list A) :
  In x l -> In x (filter f l ++ filter (fun y => negb (f y)) l).
Proof.
  intros Hx. apply in_or_app. rewrite !filter_In.
  destruct (f x) eqn:E; [left|right]; rewrite ?E; auto.
Qed.

(** The zeroconf object after the teardown: nothing is registered, and
    every record that was registered has been withdrawn, the one named as
    [info] by [unregister_service] and the others by [close]. *)
Lemma teardown_withdraws (i : ServiceInfo) (w : world) :
  let z := zeroconf (after_teardown i w) in
  services z = [] /\ closed z = true /\
  announced z = announced (zeroconf w) /\
  forall j, In j (services (zeroconf w)) -> In j (withdrawn z).
Proof.
  cbn. repeat split; auto.
  intros j Hj. rewrite <- app_assoc. apply in_or_app. right.
  apply in_filter_or, Hj.
Qed.

Lemma torn_down_after_teardown (i : ServiceInfo) (w : world) :
  torn_down (after_teardown i w).
Proof. repeat split. Qed.

(** *** Runs in which both records are registered *)

Section Registered.

Variables (env : environment) (filename : string).
Variables (token interface address : option string) (port : option Z).
Variables (reporthook : option hook) (timeout : option Z).
Variable packed : list byte.

Hypothesis port_ok : in_port_range (port_or_default env port) = true.
Hypothesis aton_ok :
  inet_aton env (address_or_default env interface address) = Some packed.
Hypothesis registers : forall i, register_outcome env i = None.

Let p := bound_port env (port_or_default env port).
Let rb := record_for packed p (fst (prepare_token env token)).
Let rh := record_for packed p (sha1_hexdigest env (Path.basename filename)).
Let w0 := announced_world env filename token port reporthook timeout packed.

(** The run is the wait, then, unless the wait never ends, the teardown
    and the verdict. *)
Lemma run_registered :
  run env filename token interface address port reporthook timeout
  = match handle_request env w0 with
    | (Blocks, w1) => (Blocks, w1)
    | (_, w1) =>
        (final_outcome timeout (downloaded (server w1)), after_teardown rh w1)
    end.
Proof.
  rewrite (run_in_range _ _ _ _ _ _ _ _ port_ok), after_try.
  rewrite (announce_and_serve_registered _ _ _ _ _ packed _ aton_ok registers).
  fold p. fold rb rh.
  change (registered rh (registered rb
            (listening env filename token port reporthook timeout))) with w0.
  destruct (handle_request_frame env w0) as (_ & Hinfo & _ & Hr).
  destruct (handle_request env w0) as [r w1]. cbn [fst snd] in *.
  assert (Hi : info w1 = Some rh) by (rewrite Hinfo; reflexivity).
  destruct Hr as [->|[->|(-> & _)]];
    [apply teardown_verdict, Hi|apply teardown_verdict, Hi|reflexivity].
Qed.

Lemma wait_frame :
  let w1 := snd (handle_request env w0) in
  zeroconf w1 = mkZeroconf [rb; rh] [rb; rh] [] false /\
  server_port (server w1) = p /\
  (fst (handle_request env w0) = Blocks -> timeout = None /\ arrivals env = []).
Proof.
  destruct (handle_request_frame env w0) as (Hz & _ & [d Hs] & Hr).
  cbv zeta. rewrite Hz, Hs. split; [reflexivity|]. split; [reflexivity|].
  intros Hb. rewrite Hb in Hr.
  destruct Hr as [Hr|[Hr|(_ & Ht & Hp)]]; try discriminate Hr.
  split; [exact Ht|exact Hp].
Qed.

(** C2, as the code has it.  A request for a path that is neither
    ['/' + secret] nor ['/' + basename] is answered with the not-found
    response, and the [RuntimeError] of the handler is reported by the
    server and does not reach [put].  That request is the one request the
    session handles: the wait is over, what arrives later stays
    unanswered, the flag [downloaded] stays false and the teardown runs;
    [put] then raises the timeout error if a timeout was configured and
    returns otherwise. *)
Theorem rejected_request_ends_session (path : string) (rest : list incoming) :
  arrivals env = Request path :: rest ->
  path <> ("/" ++ snd (prepare_token env token))%string ->
  path <> ("/" ++ Path.basename filename)%string ->
  let rw := run env filename token interface address port reporthook timeout in
  answered (snd rw) = [not_found] /\
  stderr (snd rw) = [RuntimeError "Invalid request received. Aborting."] /\
  downloaded (server (snd rw)) = false /\
  pending (snd rw) = rest /\
  torn_down (snd rw) /\
  fst rw = match timeout with
           | Some _ => Raises TimeoutException
           | None => Returns tt
           end.
Proof.
  intros Harr Hsecret Hbase. cbv zeta. rewrite run_registered.
  assert (Hacc : accepted (server w0) path = false).
  { destruct (accepted (server w0) path) eqn:E; [|reflexivity].
    apply accepted_iff in E. cbn in E. tauto. }
  unfold handle_request.
  change (pending w0) with (arrivals env). rewrite Harr.
  change (calls w0) with (@nil hook_call).
  rewrite (do_GET_rejected (fs env) (server w0) [] path Hacc).
  cbn [fst snd]. repeat split.
Qed.

(** C5, as the code has it.  An interrupt of the operator during the wait
    ends the wait; the teardown runs, no request is answered, and [put]
    returns without an error when no timeout was configured.  When a
    timeout was configured [put] raises the timeout error after the
    teardown, nothing having been downloaded. *)
Theorem interrupt_during_wait (rest : list incoming) :
  arrivals env = Interrupt :: rest ->
  let rw := run env filename token interface address port reporthook timeout in
  torn_down (snd rw) /\
  answered (snd rw) = [] /\
  fst rw = match timeout with
           | Some _ => Raises TimeoutException
           | None => Returns tt
           end.
Proof.
  intros Harr. cbv zeta. rewrite run_registered.
  unfold handle_request.
  change (pending w0) with (arrivals env). rewrite Harr.
  cbn [fst snd]. repeat split.
Qed.

(** C7.  When the wait has ended, by a request, the timeout or an
    interrupt, the teardown has withdrawn every record that was
    registered: the record of the broadcast fragment and the record of
    the content identifier were both announced, both are among the
    withdrawn, and nothing is left registered on the closed zeroconf
    object. *)
Theorem teardown_withdraws_both :
  timeout <> None \/ arrivals env <> [] ->
  let z := zeroconf (snd (run env filename token interface address port
                            reporthook timeout)) in
  announced z = [rb; rh] /\
  In rb (withdrawn z) /\ In rh (withdrawn z) /\
  services z = [] /\ closed z = true.
Proof.
  intros Hends. cbv zeta. rewrite run_registered.
  destruct wait_frame as (Hz & _ & Hblocks).
  destruct (handle_request env w0) as [r w1]. cbn [fst snd] in *.
  destruct (teardown_withdraws rh w1) as (Hs & Hc & Ha & Hw).
  rewrite Hz in Ha, Hw. cbn [announced services] in Ha, Hw.
  destruct r as [[]|e|]; cbn [snd];
    try (repeat split; [exact Ha | apply Hw; cbn; auto | apply Hw; cbn; auto]).
  destruct (Hblocks eq_refl) as [Ht Ha0]. destruct Hends; contradiction.
Qed.

(** C8, as the code has it.  One record is registered for each of the two
    aliases, the broadcast fragment first and the content identifier
    second, both under the service type [_zget._http._tcp.local.], both
    with the packed address and the port read back from the server, with
    weight 0 and priority 0.  The properties of each record are the
    dictionary of the single key [path] without a value. *)
Theorem announced_records :
  let w := snd (run env filename token interface address port reporthook
                    timeout) in
  announced (zeroconf w)
  = [mkInfo "_zget._http._tcp.local."
            (fst (prepare_token env token) ++ "._zget._http._tcp.local.")
            packed (server_port (server w)) 0 0 [("path", None)];
     mkInfo "_zget._http._tcp.local."
            (sha1_hexdigest env (Path.basename filename)
               ++ "._zget._http._tcp.local.")
            packed (server_port (server w)) 0 0 [("path", None)]].
Proof.
  cbv zeta. rewrite run_registered.
  destruct wait_frame as (Hz & Hp & _).
  destruct (handle_request env w0) as [r w1]. cbn [fst snd] in *.
  destruct (teardown_withdraws rh w1) as (_ & _ & Ha & _).
  rewrite Hz in Ha. cbn [announced] in Ha.
  destruct r as [[]|e|]; cbn [snd];
    rewrite ?Ha, ?Hz; cbn [announced after_teardown server server_port set_socket];
    rewrite Hp; reflexivity.
Qed.

End Registered.

(** *** Runs in which the teardown is reached, and the run in which it is not *)

(** C6, as the code has it.  Once the server is bound, the teardown runs on
    every path on which the body of the [try] ends normally or by an
    interrupt: an interrupt during either registration or during the wait,
    the timeout, a request that was served, a request that was rejected and
    a request whose handler failed on the file, which the server absorbs.
    The socket is then closed and the zeroconf object closed with nothing
    left registered. *)
Theorem teardown_unless_error (env : environment) (filename : string)
    (token interface address : option string) (port : option Z)
    (reporthook : option hook) (timeout : option Z) (packed : list byte) :
  in_port_range (port_or_default env port) = true ->
  inet_aton env (address_or_default env interface address) = Some packed ->
  (forall i e, register_outcome env i = Some e -> e = KeyboardInterrupt) ->
  timeout <> None \/ arrivals env <> [] ->
  torn_down (snd (run env filename token interface address port reporthook
                      timeout)).
Proof.
  intros Hport Haton Hreg Hends.
  rewrite (run_in_range _ _ _ _ _ _ _ _ Hport), after_try.
  unfold announce_and_serve. unfold bind at 1.
  rewrite (announce_loop _ _ _ _ _ packed _ Haton).
  set (p := bound_port env (port_or_default env port)).
  set (rb := record_for packed p (fst (prepare_token env token))).
  set (rh := record_for packed p (sha1_hexdigest env (Path.basename filename))).
  set (w := listening env filename token port reporthook timeout).
  destruct (register_outcome env rb) as [e|] eqn:Eb.
  { rewrite (Hreg _ _ Eb).
    rewrite (teardown_verdict timeout rb (with_info rb w) eq_refl).
    apply torn_down_after_teardown. }
  destruct (register_outcome env rh) as [e|] eqn:Eh.
  { rewrite (Hreg _ _ Eh).
    rewrite (teardown_verdict timeout rh (with_info rh (registered rb w)) eq_refl).
    apply torn_down_after_teardown. }
  destruct (handle_request_frame env (registered rh (registered rb w)))
    as (_ & Hinfo & _ & Hr).
  destruct (handle_request env (registered rh (registered rb w))) as [r w1].
  cbn [fst snd] in Hinfo, Hr.
  assert (Hi : info w1 = Some rh) by (rewrite Hinfo; reflexivity).
  destruct Hr as [->|[->|(_ & Ht & Hp)]].
  - rewrite (teardown_verdict timeout rh w1 Hi). apply torn_down_after_teardown.
  - rewrite (teardown_verdict timeout rh w1 Hi). apply torn_down_after_teardown.
  - destruct Hends; contradiction.
Qed.

(** C10.  When the port [put] works with is 0, given as such or read as
    such from the configuration, the port of the server is the one the
    system picked, and every record that is registered carries that port
    and not 0. *)
Theorem ephemeral_port_announced (env : environment) (filename : string)
    (token interface address : option string) (requested : option Z)
    (reporthook : option hook) (timeout : option Z) :
  port_or_default env requested = 0 ->
  0 < ephemeral_port env ->
  let w := snd (run env filename token interface address requested reporthook
                    timeout) in
  server_port (server w) = ephemeral_port env /\
  forall i, In i (announced (zeroconf w)) ->
            port i = server_port (server w) /\ port i <> 0.
Proof.
  intros Hzero Hos w.
  assert (Hport : in_port_range (port_or_default env requested) = true)
    by (rewrite Hzero; reflexivity).
  assert (Hp : bound_port env (port_or_default env requested) = ephemeral_port env)
    by (rewrite Hzero; reflexivity).
  assert (Hgoal : server_port (server w) = ephemeral_port env /\
                  forall i, In i (announced (zeroconf w)) ->
                            port i = ephemeral_port env).
  { pose proof (run_ends env filename token interface address requested reporthook
                  timeout Hport) as Hends.
    cbv zeta in Hends. rewrite Hp in Hends. subst w.
    destruct Hends
      as [[(Hs & _)|(_ & Hs)]|[(w1 & Hs & _ & Heq)|(w1 & i & Hs & _ & Heq)]];
      try rewrite Heq; cbn [snd];
      destruct Hs as (_ & Hsp & _ & Hann); split; assumption. }
  destruct Hgoal as [Hsp Hann]. split; [exact Hsp|].
  intros i Hi. rewrite (Hann i Hi), Hsp. split; [reflexivity|lia].
Qed.

(** ** Runs on sample data *)

(** [unregister_service(info)] alone withdraws the record [info] names, the
    last one the loop built; the record of the broadcast fragment stays
    registered until [close]. *)
Example unregister_service_names_last :
  let w := announced_world (Sample.env Sample.all_register []) "notes.txt"
             None None None None [xc0; xa8; x00; x07] in
  map name (services (zeroconf w))
  = ["ab._zget._http._tcp.local.";
     "da39a3ee5e6b4b0d3255bfef95601890afd80709._zget._http._tcp.local."] /\
  map name (services (zeroconf (snd (unregister_service_info w))))
  = ["ab._zget._http._tcp.local."] /\
  services (zc_close (zeroconf (snd (unregister_service_info w)))) = [].
Proof. vm_compute. repeat split. Qed.

Lemma rejected_request_ends_session_witness :
  let rw := run (Sample.env Sample.all_register [Request "/nope"; Request "/cd"])
                "notes.txt" None None None None None None in
  answered (snd rw) = [not_found] /\
  pending (snd rw) = [Request "/cd"] /\
  fst rw = Returns tt.
Proof.
  pose proof (rejected_request_ends_session
                (Sample.env Sample.all_register [Request "/nope"; Request "/cd"])
                "notes.txt" None None None None None None
                [xc0; xa8; x00; x07] eq_refl eq_refl (fun _ => eq_refl)
                "/nope" [Request "/cd"] eq_refl) as H.
  cbv zeta in *.
  destruct H as (Ha & _ & _ & Hp & _ & Hr); [discriminate|discriminate|].
  repeat split; assumption.
Defined.

Lemma interrupt_during_wait_witness :
  let rw := run (Sample.env Sample.all_register [Interrupt])
                "notes.txt" None None None None None None in
  torn_down (snd rw) /\ fst rw = Returns tt.
Proof.
  pose proof (interrupt_during_wait
                (Sample.env Sample.all_register [Interrupt])
                "notes.txt" None None None None None None
                [xc0; xa8; x00; x07] eq_refl eq_refl (fun _ => eq_refl)
                [] eq_refl) as H.
  cbv zeta in *. destruct H as (Ht & _ & Hr). split; assumption.
Defined.

Lemma teardown_withdraws_both_witness :
  let z := zeroconf (snd (run (Sample.env Sample.all_register [Request "/cd"])
                              "notes.txt" None None None None None None)) in
  List.length (announced z) = 2%nat /\ services z = [] /\ closed z = true.
Proof.
  pose proof (teardown_withdraws_both
                (Sample.env Sample.all_register [Request "/cd"])
                "notes.txt" None None None None None None
                [xc0; xa8; x00; x07] eq_refl eq_refl (fun _ => eq_refl)
                (or_intror (fun H => @nil_cons _ _ _ (eq_sym H)))) as H.
  cbv zeta in *. destruct H as (Ha & _ & _ & Hs & Hc).
  rewrite Ha. repeat split; assumption.
Defined.

Lemma announced_records_witness :
  map name (announced (zeroconf (snd
    (run (Sample.env Sample.all_register [Request "/cd"])
         "notes.txt" None None None None None None))))
  = ["ab._zget._http._tcp.local.";
     "da39a3ee5e6b4b0d3255bfef95601890afd80709._zget._http._tcp.local."].
Proof.
  pose proof (announced_records
                (Sample.env Sample.all_register [Request "/cd"])
                "notes.txt" None None None None None None
                [xc0; xa8; x00; x07] eq_refl eq_refl (fun _ => eq_refl)) as H.
  cbv zeta in H. rewrite H. reflexivity.
Defined.

Lemma teardown_unless_error_witness :
  torn_down (snd (run (Sample.env Sample.all_register [Request "/missing"])
                      "gone.txt" None None None None None (Some 5))).
Proof.
  apply (teardown_unless_error
           (Sample.env Sample.all_register [Request "/missing"])
           "gone.txt" None None None None None (Some 5) [xc0; xa8; x00; x07]).
  - reflexivity.
  - reflexivity.
  - intros i e H. discriminate H.
  - left. discriminate.
Defined.

Lemma ephemeral_port_announced_witness :
  let w := snd (run (Sample.env Sample.all_register [Request "/cd"])
                    "notes.txt" None None None None None None) in
  server_port (server w) = 49152 /\
  map port (announced (zeroconf w)) = [49152; 49152].
Proof.
  pose proof (ephemeral_port_announced
                (Sample.env Sample.all_register [Request "/cd"])
                "notes.txt" None None None None None None
                eq_refl eq_refl) as H.
  cbv zeta in *. destruct H as [Hp _].
  split; [exact Hp | vm_compute; reflexivity].
Defined.

(** C2 fails as stated.  A request for [/nope] arrives, then one for the
    secret path [/cd], which the handler would accept.  The first is
    answered 404; [put] then closes the socket and returns, and the second
    request is still pending: it is never answered and nothing is
    downloaded. *)
Lemma second_request_unanswered :
  let rw := run (Sample.env Sample.all_register [Request "/nope"; Request "/cd"])
                "notes.txt" None None None None None None in
  accepted (server (snd rw)) "/cd" = true /\
  answered (snd rw) = [not_found] /\
  pending (snd rw) = [Request "/cd"] /\
  downloaded (server (snd rw)) = false /\
  socket (server (snd rw)) = Closed.
Proof. vm_compute. repeat split. Qed.

(** C5 fails as stated.  With a timeout of 30 seconds configured, an
    interrupt during the wait makes [put] raise the timeout error once the
    teardown is done. *)
Lemma interrupt_reported_as_timeout :
  let rw := run (Sample.env Sample.all_register [Interrupt])
                "notes.txt" None None None None None (Some 30) in
  fst rw = Raises TimeoutException /\ torn_down (snd rw).
Proof. vm_compute. repeat split. Qed.

(** C6 fails as stated.  When the registration of the first record raises
    an error of the zeroconf library, the error leaves [put]: the socket is
    still listening and the zeroconf object still open. *)
Lemma registration_error_skips_teardown :
  let rw := run (Sample.env Sample.none_registers [Request "/cd"])
                "notes.txt" None None None None None None in
  fst rw = Raises (ZeroconfError "NonUniqueNameException") /\
  socket (server (snd rw)) = Listening /\
  closed (zeroconf (snd rw)) = false /\
  ~ torn_down (snd rw).
Proof.
  vm_compute. repeat split; try reflexivity.
  intros (H & _). discriminate H.
Qed.

(** C8 fails as stated.  The two records that are registered carry the
    properties [{'path': None}], a dictionary of one key, not an empty
    one. *)
Lemma metadata_not_empty :
  let w := snd (run (Sample.env Sample.all_register [Request "/cd"])
                    "notes.txt" None None None None None None) in
  map properties (announced (zeroconf w))
  = [[("path", None)]; [("path", None)]] /\
  forall i, In i (announced (zeroconf w)) -> properties i <> [].
Proof.
  vm_compute. split; [reflexivity|].
  intros i [<-|[<-|[]]]; discriminate.
Qed.

(** * Every path through the code *)

(** ** The handler *)

(** The loop only adds calls, and adds none without a hook. *)
Lemma send_loop_extends (fuel : nat) :
  forall fh i m h h',
    send_loop fuel fh i m h = Some h' ->
    exists new,
      h_calls h' = h_calls h ++ new /\
      (reporthook (h_server h) = None -> new = []).
Proof.
  induction fuel as [|fuel IH]; intros fh i m h h' Hrun; [discriminate|].
  cbn [send_loop] in Hrun.
  destruct (firstn (Z.to_nat chunksize) fh) as [|b data].
  - injection Hrun as <-. exists []. rewrite app_nil_r. auto.
  - destruct (IH _ _ _ _ _ Hrun) as (new & Hcalls & Hnone).
    unfold call_hook, write_chunk in Hcalls, Hnone. cbn [h_server] in Hcalls, Hnone.
    destruct (reporthook (h_server h)) as [hk|] eqn:Hhook;
      cbn [h_calls h_server] in Hcalls, Hnone.
    + eexists. rewrite Hcalls, <- app_assoc. split; [reflexivity|discriminate].
    + exists new. split; [exact Hcalls|]. intros _. apply Hnone, Hhook.
Qed.

(** A handler that starts with nothing sent ends in one of the three ways
    of [do_GET_ends]. *)
Lemma do_GET_path (fs : filesystem) (path : string) (s : StateHTTPServer)
    (cs : list hook_call) :
  do_GET_ends fs path s cs
    (fst (do_GET fs path (mkH s no_response cs)))
    (snd (do_GET fs path (mkH s no_response cs))).
Proof.
  destruct (accepted s path) eqn:Hacc.
  - destruct (fs (Path.join_curdir (filename s))) as [content|] eqn:Hfs.
    + destruct (do_GET_accepted fs s cs path content Hacc Hfs)
        as (h' & Hrun & Hsrv & Hout).
      assert (Hcalls : exists new, h_calls h' = cs ++ new /\
                                   (reporthook s = None -> new = [])).
      { revert Hrun. unfold do_GET. cbn [h_server]. rewrite Hacc, Hfs.
        match goal with
        | |- context [send_loop ?f ?fh ?i ?m ?h] =>
            destruct (send_loop f fh i m h) as [h5|] eqn:Hloop
        end; intros Hrun; injection Hrun as <-.
        - destruct (send_loop_extends _ _ _ _ _ _ Hloop) as (new & Hc & Hn).
          exists new. split; [exact Hc|exact Hn].
        - exists []. rewrite app_nil_r. auto. }
      destruct Hcalls as (new & Hc & Hn).
      rewrite Hrun. cbn [fst snd].
      destruct h' as [s' out' cs']. cbn [h_server h_out h_calls] in *. subst.
      now apply get_served.
    + unfold do_GET. cbn [h_server]. rewrite Hacc, Hfs. cbn [fst snd].
      now apply get_unreadable.
  - rewrite (do_GET_rejected fs s cs path Hacc). cbn [fst snd].
    now apply get_rejected.
Qed.

(** ** put *)

Lemma exn_interrupt_or_not (e : exn) :
  e = KeyboardInterrupt \/ e <> KeyboardInterrupt.
Proof. destruct e; auto; right; discriminate. Qed.

Lemma after_try_raises (m : M unit) (timeout : option Z) (w w1 : world) (e : exn) :
  m w = (Raises e, w1) ->
  e <> KeyboardInterrupt ->
  (try_except_KeyboardInterrupt m ;; teardown ;; verdict timeout) w
  = (Raises e, w1).
Proof.
  intros Hm He. rewrite after_try, Hm. destruct e; try reflexivity.
  now contradiction He.
Qed.

Lemma after_try_interrupted (m : M unit) (timeout : option Z) (w w1 : world)
    (i : ServiceInfo) :
  m w = (Raises KeyboardInterrupt, w1) ->
  info w1 = Some i ->
  (try_except_KeyboardInterrupt m ;; teardown ;; verdict timeout) w
  = (final_outcome timeout (downloaded (server w1)), after_teardown i w1).
Proof.
  intros Hm Hi. rewrite after_try, Hm. apply teardown_verdict, Hi.
Qed.

Lemma after_try_returns (m : M unit) (timeout : option Z) (w w1 : world)
    (i : ServiceInfo) :
  m w = (Returns tt, w1) ->
  info w1 = Some i ->
  (try_except_KeyboardInterrupt m ;; teardown ;; verdict timeout) w
  = (final_outcome timeout (downloaded (server w1)), after_teardown i w1).
Proof.
  intros Hm Hi. rewrite after_try, Hm. apply teardown_verdict, Hi.
Qed.

Lemma after_try_blocks (m : M unit) (timeout : option Z) (w w1 : world) :
  m w = (Blocks, w1) ->
  (try_except_KeyboardInterrupt m ;; teardown ;; verdict timeout) w
  = (Blocks, w1).
Proof. intros Hm. rewrite after_try, Hm. reflexivity. Qed.

(** Every run of [put] ends in one of the ways of [put_ends]. *)
Theorem put_path (env : environment) (filename : string)
    (token interface address : option string) (port : option Z)
    (reporthook : option hook) (timeout : option Z) :
  put_ends env filename token interface address port reporthook timeout
    (fst (run env filename token interface address port reporthook timeout))
    (snd (run env filename token interface address port reporthook timeout)).
Proof.
  destruct (in_port_range (port_or_default env port)) eqn:Hport.
  2:{ rewrite (run_out_of_range _ _ _ _ _ _ _ _ Hport). now constructor. }
  rewrite (run_in_range _ _ _ _ _ _ _ _ Hport).
  set (L := listening env filename token port reporthook timeout).
  set (p := bound_port env (port_or_default env port)).
  set (a := address_or_default env interface address).
  set (b := fst (prepare_token env token)).
  set (hh := sha1_hexdigest env (Path.basename filename)).
  destruct (inet_aton env a) as [packed|] eqn:Haton.
  2:{ rewrite (after_try_raises _ timeout L L socket_error);
        [now apply ends_not_an_address | | discriminate].
      unfold announce_and_serve, for_each, announce, bind. rewrite Haton.
      reflexivity. }
  pose proof (announce_loop env a p b hh packed L Haton) as Hloop.
  set (rb := record_for packed p b) in *.
  set (rh := record_for packed p hh) in *.
  destruct (register_outcome env rb) as [e|] eqn:Eb.
  { assert (Hm : announce_and_serve env a p b hh L = (Raises e, with_info rb L))
      by (unfold announce_and_serve, bind; rewrite Hloop; reflexivity).
    destruct (exn_interrupt_or_not e) as [->|He].
    - rewrite (after_try_interrupted _ timeout L _ rb Hm eq_refl).
      now apply ends_first_interrupted.
    - rewrite (after_try_raises _ timeout L _ e Hm He).
      now apply ends_first_fails. }
  destruct (register_outcome env rh) as [e|] eqn:Eh.
  { assert (Hm : announce_and_serve env a p b hh L
                 = (Raises e, with_info rh (registered rb L)))
      by (unfold announce_and_serve, bind; rewrite Hloop; reflexivity).
    destruct (exn_interrupt_or_not e) as [->|He].
    - rewrite (after_try_interrupted _ timeout L _ rh Hm eq_refl).
      now apply ends_second_interrupted.
    - rewrite (after_try_raises _ timeout L _ e Hm He).
      now apply ends_second_fails. }
  set (W := announced_world env filename token port reporthook timeout packed).
  assert (Hm : announce_and_serve env a p b hh L = handle_request env W)
    by (unfold announce_and_serve, bind; rewrite Hloop; reflexivity).
  destruct (arrivals env) as [|[path|] rest] eqn:Harr.
  - destruct timeout as [t|] eqn:Ht.
    + assert (Hw : handle_request env W = (Returns tt, W)).
      { unfold handle_request. change (pending W) with (arrivals env).
        rewrite Harr. reflexivity. }
      rewrite Hw in Hm.
      rewrite (after_try_returns _ (Some t) L W rh Hm eq_refl).
      cbn [fst snd]. now apply (ends_timed_out _ _ _ _ _ _ _ _ packed t).
    + assert (Hw : handle_request env W = (Blocks, W)).
      { unfold handle_request. change (pending W) with (arrivals env).
        rewrite Harr. reflexivity. }
      rewrite Hw in Hm. rewrite (after_try_blocks _ None L W Hm).
      now apply ends_never.
  - pose proof (surjective_pairing
                  (do_GET (fs env) path (mkH (server W) no_response []))) as Hget.
    destruct (snd (do_GET (fs env) path (mkH (server W) no_response [])))
      as [e|] eqn:Hsnd.
    + assert (Hw : handle_request env W
                   = (Returns tt,
                      with_stderr e
                        (handled (fst (do_GET (fs env) path
                                         (mkH (server W) no_response [])))
                                 rest W))).
      { unfold handle_request. change (pending W) with (arrivals env).
        rewrite Harr. change (calls W) with (@nil hook_call).
        rewrite Hget. reflexivity. }
      rewrite Hw in Hm. rewrite (after_try_returns _ timeout L _ rh Hm eq_refl).
      now apply (ends_handler_failed _ _ _ _ _ _ _ _ packed path rest _ e).
    + assert (Hw : handle_request env W
                   = (Returns tt,
                      handled (fst (do_GET (fs env) path
                                      (mkH (server W) no_response [])))
                              rest W)).
      { unfold handle_request. change (pending W) with (arrivals env).
        rewrite Harr. change (calls W) with (@nil hook_call).
        rewrite Hget. reflexivity. }
      rewrite Hw in Hm. rewrite (after_try_returns _ timeout L _ rh Hm eq_refl).
      now apply (ends_handled _ _ _ _ _ _ _ _ packed path rest).
  - assert (Hw : handle_request env W
                 = (Raises KeyboardInterrupt, with_pending rest W)).
    { unfold handle_request. change (pending W) with (arrivals env).
      rewrite Harr. reflexivity. }
    rewrite Hw in Hm.
    rewrite (after_try_interrupted _ timeout L _ rh Hm eq_refl).
    now apply ends_wait_interrupted.
Qed.

(** [paths] splits a goal about a run of [put] into the ways the run can
    end; [handler_paths] does the same for the handler of a handled
    request. *)
Ltac paths env filename token interface address port reporthook timeout :=
  let H := fresh "Hpath" in
  pose proof (put_path env filename token interface address port reporthook
                timeout) as H;
  destruct (run env filename token interface address port reporthook timeout)
    as [?r ?w];
  cbn [fst snd] in *;
  destruct H.

Ltac handler_paths :=
  match goal with
  | Hget : do_GET ?fs ?path (mkH ?s no_response ?cs) = (?h, ?e) |- _ =>
      let Hg := fresh "Hends" in
      pose proof (do_GET_path fs path s cs) as Hg;
      rewrite Hget in Hg; cbn [fst snd] in Hg;
      inversion Hg; subst; clear Hg
  end.

(** ** Properties of every run *)

(** X2.  A [KeyboardInterrupt] never leaves [put], whether it is raised by
    a registration or during the wait. *)
Theorem interrupt_never_leaves_put (env : environment) (filename : string)
    (token interface address : option string) (port : option Z)
    (reporthook : option hook) (timeout : option Z) :
  fst (run env filename token interface address port reporthook timeout)
  <> Raises KeyboardInterrupt.
Proof.
  paths env filename token interface address port reporthook timeout;
    try discriminate; try congruence;
    unfold final_outcome; destruct timeout;
    try match goal with |- context [negb ?b] => destruct b end;
    discriminate.
Qed.

(** X4.  A run of [put] takes at most one arrival from the network and
    answers at most one request: what is left pending is what arrived,
    less at most its first element, and an answer was sent only if that
    element was a request. *)
Theorem at_most_one_request (env : environment) (filename : string)
    (token interface address : option string) (requested : option Z)
    (reporthook : option hook) (timeout : option Z) :
  let w := snd (run env filename token interface address requested reporthook
                    timeout) in
  (List.length (answered w) <= 1)%nat /\
  exists taken,
    arrivals env = taken ++ pending w /\
    (List.length taken <= 1)%nat /\
    (answered w <> [] -> exists path, taken = [Request path]).
Proof.
  cbv zeta.
  paths env filename token interface address requested reporthook timeout;
    cbn; (split; [lia|]);
    try (exists []; split;
         [reflexivity
         | split; [cbn; lia | intros Hn; exfalso; apply Hn; reflexivity]]);
    match goal with Ha : arrivals env = _ |- _ => rewrite Ha end.
  - exists [Interrupt].
    split; [reflexivity
           | split; [cbn; lia | intros Hn; exfalso; apply Hn; reflexivity]].
  - exists [Request path].
    split; [reflexivity | split; [cbn; lia | intros _; eauto]].
  - exists [Request path].
    split; [reflexivity | split; [cbn; lia | intros _; eauto]].
Qed.

(** X5.  Without a progress hook no call is recorded, however the run
    ends. *)
Theorem no_hook_no_calls (env : environment) (filename : string)
    (token interface address : option string) (requested : option Z)
    (timeout : option Z) :
  calls (snd (run env filename token interface address requested None
                  timeout)) = [].
Proof.
  paths env filename token interface address requested (@None hook) timeout;
    try reflexivity.
  - handler_paths. cbn [calls after_teardown handled h_calls].
    match goal with Hn : _ -> ?new = [] |- _ => rewrite (Hn eq_refl) end.
    reflexivity.
  - handler_paths; reflexivity.
Qed.

(** X6.  [put] never returns normally without the teardown: when it
    returns, the socket is closed and the zeroconf object is closed with
    nothing left registered. *)
Theorem returns_only_after_teardown (env : environment) (filename : string)
    (token interface address : option string) (requested : option Z)
    (reporthook : option hook) (timeout : option Z) :
  fst (run env filename token interface address requested reporthook timeout)
  = Returns tt ->
  torn_down (snd (run env filename token interface address requested
                      reporthook timeout)).
Proof.
  paths env filename token interface address requested reporthook timeout;
    intros Hr; try discriminate Hr; apply torn_down_after_teardown.
Qed.

Lemma returns_only_after_teardown_witness :
  torn_down (snd (run (Sample.env Sample.all_register [Request "/cd"])
                      "notes.txt" None None None None None (Some 30))).
Proof.
  apply (returns_only_after_teardown
           (Sample.env Sample.all_register [Request "/cd"])
           "notes.txt" None None None None None (Some 30)).
  vm_compute. reflexivity.
Defined.

(** X8.  The flag [downloaded] is set at the end of a run only if a request
    was accepted and its file opened: the port was in range, the address
    packed, both records registered, and the first thing to arrive was a
    request for ['/' + secret] or ['/' + basename] while the file could be
    opened. *)
Theorem downloaded_only_if_served (env : environment) (filename : string)
    (token interface address : option string) (requested : option Z)
    (reporthook : option hook) (timeout : option Z) :
  let p := bound_port env (port_or_default env requested) in
  downloaded (server (snd (run env filename token interface address requested
                               reporthook timeout))) = true ->
  exists packed path rest content,
    in_port_range (port_or_default env requested) = true /\
    inet_aton env (address_or_default env interface address) = Some packed /\
    register_outcome env
      (record_for packed p (fst (prepare_token env token))) = None /\
    register_outcome env
      (record_for packed p (sha1_hexdigest env (Path.basename filename)))
    = None /\
    arrivals env = Request path :: rest /\
    (path = ("/" ++ snd (prepare_token env token))%string \/
     path = ("/" ++ Path.basename filename)%string) /\
    fs env (Path.join_curdir filename) = Some content.
Proof.
  cbv zeta.
  paths env filename token interface address requested reporthook timeout;
    intros Hd; try discriminate Hd.
  - handler_paths; try discriminate Hd.
    match goal with Ha : accepted _ _ = true |- _ => apply accepted_iff in Ha end.
    eexists packed, path, rest, _. repeat split; eassumption.
  - handler_paths; discriminate Hd.
Qed.

Lemma downloaded_only_if_served_witness :
  exists path rest,
    arrivals (Sample.env Sample.all_register [Request "/cd"; Interrupt])
    = Request path :: rest /\
    (path = "/cd" \/ path = "/notes.txt").
Proof.
  destruct (downloaded_only_if_served
              (Sample.env Sample.all_register [Request "/cd"; Interrupt])
              "notes.txt" None None None None None None)
    as (packed & path & rest & content & _ & _ & _ & _ & Harr & Hpath & _).
  - vm_compute. reflexivity.
  - exists path, rest. split; [exact Harr|exact Hpath].
Defined.

(** ** Runs in which both records are registered, continued *)

Lemma filter_split_length {A} (f : A -> bool) (l : list A) :
  (List.length (filter f l) + List.length (filter (fun y => negb (f y)) l))%nat
  = List.length l.
Proof.
  induction l as [|x l IH]; cbn; [reflexivity|].
  destruct (f x); cbn; lia.
Qed.

(** With a port in range, [put_on] is the [try], the teardown and the
    verdict, run from [listening]. *)
Lemma run_on_in_range (c : connection) (env : environment) (filename : string)
    (token interface address : option string) (port : option Z)
    (reporthook : option hook) (timeout : option Z) :
  in_port_range (port_or_default env port) = true ->
  run_on c env filename token interface address port reporthook timeout
  = (try_except_KeyboardInterrupt
       (for_each [fst (prepare_token env token);
                  sha1_hexdigest env (Path.basename filename)]
                 (announce env (address_or_default env interface address)
                           (bound_port env (port_or_default env port))) ;;
        handle_request_on c env) ;;
     teardown ;; verdict timeout)
      (listening env filename token port reporthook timeout).
Proof.
  intros Hport. unfold run_on, put_on, listening. rewrite Hport.
  cbv beta iota zeta. unfold negb.
  destruct (prepare_token env token) as [b s]. cbn [fst snd].
  destruct token; reflexivity.
Qed.

Section Served.

Variables (env : environment) (file : string).
Variables (token interface address : option string) (requested : option Z).
Variables (reporthook : option hook) (limit : option Z).
Variable packed : list byte.

Hypothesis port_ok : in_port_range (port_or_default env requested) = true.
Hypothesis aton_ok :
  inet_aton env (address_or_default env interface address) = Some packed.
Hypothesis registers : forall i, register_outcome env i = None.

Local Abbreviation W :=
  (announced_world env file token requested reporthook limit packed).

Lemma accepted_paths (path : string) :
  path = ("/" ++ snd (prepare_token env token))%string \/
  path = ("/" ++ Path.basename file)%string ->
  accepted (server W) path = true.
Proof. intros H. apply accepted_iff. exact H. Qed.

(** X9.  The transfer that succeeds.  Take a peer that stays connected
    and a base name whose [Content-disposition] latin-1 can encode.  When
    the first thing to arrive is a request for ['/' + secret] or
    ['/' + basename] and the file can be opened, the peer receives the 200
    response with the whole file, the handler reports nothing on stderr,
    [downloaded] is set, later arrivals are left alone, the teardown runs
    and [put] returns normally, with or without a timeout. *)
Theorem served_request (c : connection) (path : string)
    (rest : list incoming) (content : list byte) :
  resets_after c = None ->
  encodes c ("inline; filename="
               ++ String "034" (Path.basename file ++ String "034" ""))%string
  = true ->
  arrivals env = Request path :: rest ->
  path = ("/" ++ snd (prepare_token env token))%string \/
  path = ("/" ++ Path.basename file)%string ->
  fs env (Path.join_curdir file) = Some content ->
  let rw := run_on c env file token interface address requested reporthook
                   limit in
  fst rw = Returns tt /\
  answered (snd rw)
  = [mkResponse (Some 200)
       [("Content-type", HStr "application/octet-stream");
        ("Content-disposition",
         HStr ("inline; filename="
                 ++ String "034" (Path.basename file ++ String "034" ""))%string);
        ("Content-length", HInt (Z.of_nat (List.length content)))]
       content] /\
  stderr (snd rw) = [] /\
  downloaded (server (snd rw)) = true /\
  pending (snd rw) = rest /\
  torn_down (snd rw).
Proof.
  intros Hpeer Henc Harr Hpath Hfs. cbv zeta.
  rewrite (run_on_in_range _ _ _ _ _ _ _ _ _ port_ok).
  destruct (do_GET_accepted (fs env) (server W) [] path content
              (accepted_paths path Hpath) Hfs) as (h' & Hrun & Hsrv & Hout).
  assert (Hm : (for_each [fst (prepare_token env token);
                          sha1_hexdigest env (Path.basename file)]
                  (announce env (address_or_default env interface address)
                            (bound_port env (port_or_default env requested))) ;;
                handle_request_on c env)
                 (listening env file token requested reporthook limit)
               = (Returns tt, handled h' rest W)).
  { unfold bind at 1.
    rewrite (announce_loop _ _ _ _ _ packed _ aton_ok), !registers.
    unfold handle_request_on.
    change (pending (registered _ (registered _ _))) with (arrivals env).
    rewrite Harr.
    change (calls (registered _ (registered _ _))) with (@nil hook_call).
    change (server (registered _ (registered _ _))) with (server W).
    rewrite (do_GET_on_sound c (fs env) path (mkH (server W) no_response [])
               Hpeer Henc), Hrun.
    reflexivity. }
  rewrite (after_try_returns _ limit _ _
             (record_for packed (bound_port env (port_or_default env requested))
                         (sha1_hexdigest env (Path.basename file)))
             Hm eq_refl).
  cbn [fst snd]. unfold final_outcome.
  cbn [server handled after_teardown answered stderr pending downloaded
       set_socket]. rewrite Hsrv, Hout. cbn.
  repeat split. destruct limit; reflexivity.
Qed.

(** X10.  The file that cannot be opened.  When the first thing to arrive
    is a request for an accepted path but opening the file fails, nothing
    at all is sent to the peer, not even a status; the [IOError] is
    reported by the server, [downloaded] stays false, the teardown runs,
    and [put] raises the timeout error if a timeout was configured and
    returns otherwise. *)
Theorem unreadable_file (path : string) (rest : list incoming) :
  arrivals env = Request path :: rest ->
  path = ("/" ++ snd (prepare_token env token))%string \/
  path = ("/" ++ Path.basename file)%string ->
  fs env (Path.join_curdir file) = None ->
  let rw := run env file token interface address requested reporthook
                limit in
  answered (snd rw) = [no_response] /\
  stderr (snd rw) = [IOError (Path.join_curdir file)] /\
  downloaded (server (snd rw)) = false /\
  torn_down (snd rw) /\
  fst rw = match limit with
           | Some _ => Raises TimeoutException
           | None => Returns tt
           end.
Proof.
  intros Harr Hpath Hfs. cbv zeta.
  rewrite (run_registered _ _ _ _ _ _ _ _ packed port_ok aton_ok registers).
  unfold handle_request. change (pending W) with (arrivals env). rewrite Harr.
  change (calls W) with (@nil hook_call).
  unfold do_GET. cbn [h_server]. rewrite (accepted_paths path Hpath).
  change (filename (server W)) with file. rewrite Hfs.
  cbn. repeat split.
Qed.

(** X11.  The timeout that expires.  When a timeout is configured and
    nothing arrives, no response is sent, the teardown runs and withdraws
    both records, and [put] raises the timeout error. *)
Theorem timeout_expires (t : Z) :
  limit = Some t ->
  arrivals env = [] ->
  let rw := run env file token interface address requested reporthook
                limit in
  fst rw = Raises TimeoutException /\
  answered (snd rw) = [] /\
  torn_down (snd rw) /\
  List.length (withdrawn (zeroconf (snd rw))) = 2%nat.
Proof.
  intros Ht Harr. cbv zeta.
  rewrite (run_registered _ _ _ _ _ _ _ _ packed port_ok aton_ok registers).
  unfold handle_request. change (pending W) with (arrivals env). rewrite Harr.
  change (timeout (server W)) with limit. rewrite Ht.
  cbn [fst snd]. split; [reflexivity|]. split; [reflexivity|].
  split; [apply torn_down_after_teardown|].
  unfold after_teardown, zc_close, zc_unregister.
  cbn [zeroconf withdrawn services].
  change (withdrawn (zeroconf W)) with (@nil ServiceInfo).
  rewrite app_nil_l, length_app, filter_split_length. reflexivity.
Qed.

(** X3.  The wait without a timeout.  When no timeout is configured and
    nothing arrives, [put] waits for ever: it never reaches the teardown,
    the socket stays open and both records stay registered. *)
Theorem waits_without_timeout :
  limit = None ->
  arrivals env = [] ->
  let rw := run env file token interface address requested reporthook limit in
  fst rw = Blocks /\
  socket (server (snd rw)) = Listening /\
  closed (zeroconf (snd rw)) = false /\
  map name (services (zeroconf (snd rw)))
  = [(fst (prepare_token env token) ++ "._zget._http._tcp.local.")%string;
     (sha1_hexdigest env (Path.basename file)
        ++ "._zget._http._tcp.local.")%string].
Proof.
  intros Ht Harr. cbv zeta.
  rewrite (run_registered _ _ _ _ _ _ _ _ packed port_ok aton_ok registers).
  unfold handle_request. change (pending W) with (arrivals env). rewrite Harr.
  change (timeout (server W)) with limit. rewrite Ht.
  cbn [fst snd]. repeat split.
Qed.

End Served.

Lemma served_request_witness :
  let rw := run_on (mkConnection ascii_only None)
                   (Sample.env Sample.all_register [Request "/notes.txt"; Interrupt])
                   "notes.txt" None None None None None (Some 30) in
  fst rw = Returns tt /\
  List.length (answered (snd rw)) = 1%nat /\
  pending (snd rw) = [Interrupt].
Proof.
  pose proof (served_request
                (Sample.env Sample.all_register [Request "/notes.txt"; Interrupt])
                "notes.txt" None None None None None (Some 30)
                [xc0; xa8; x00; x07] eq_refl eq_refl (fun _ => eq_refl)
                (mkConnection ascii_only None)
                "/notes.txt" [Interrupt] Sample.content eq_refl eq_refl eq_refl
                (or_intror eq_refl) eq_refl) as H.
  cbv zeta in *. destruct H as (Hr & Ha & _ & _ & Hp & _).
  rewrite Ha. repeat split; assumption.
Defined.

Lemma waits_without_timeout_witness :
  fst (run (Sample.env Sample.all_register []) "notes.txt"
           None None None None None None) = Blocks.
Proof.
  pose proof (waits_without_timeout
                (Sample.env Sample.all_register []) "notes.txt"
                None None None None None None
                [xc0; xa8; x00; x07] eq_refl eq_refl (fun _ => eq_refl)
                eq_refl eq_refl) as H.
  cbv zeta in H. exact (proj1 H).
Defined.

Lemma unreadable_file_witness :
  let rw := run (Sample.env Sample.all_register [Request "/gone.txt"])
                "gone.txt" None None None None None None in
  answered (snd rw) = [no_response] /\
  stderr (snd rw) = [IOError "./gone.txt"] /\
  fst rw = Returns tt.
Proof.
  pose proof (unreadable_file
                (Sample.env Sample.all_register [Request "/gone.txt"])
                "gone.txt" None None None None None None
                [xc0; xa8; x00; x07] eq_refl eq_refl (fun _ => eq_refl)
                "/gone.txt" [] eq_refl (or_intror eq_refl) eq_refl) as H.
  cbv zeta in H. destruct H as (Ha & He & _ & _ & Hr).
  repeat split; assumption.
Defined.

Lemma timeout_expires_witness :
  let rw := run (Sample.env Sample.all_register []) "notes.txt"
                None None None None None (Some 30) in
  fst rw = Raises TimeoutException /\ torn_down (snd rw).
Proof.
  pose proof (timeout_expires
                (Sample.env Sample.all_register []) "notes.txt"
                None None None None None (Some 30)
                [xc0; xa8; x00; x07] eq_refl eq_refl (fun _ => eq_refl)
                30 eq_refl eq_refl) as H.
  cbv zeta in H. destruct H as (Hr & _ & Ht & _). split; assumption.
Defined.

(** ** The handler on an empty file *)

(** X12.  A file of no bytes is served like any other: status 200, a
    [Content-length] of 0, an empty body, no exception and [downloaded]
    set; the loop writes nothing and calls the hook not once, configured
    or not. *)
Theorem empty_file_served (fs : filesystem) (s : StateHTTPServer)
    (cs : list hook_call) (path : string) :
  accepted s path = true ->
  fs (Path.join_curdir (filename s)) = Some [] ->
  do_GET fs path (mkH s no_response cs)
  = (mkH (set_downloaded true s)
         (mkResponse (Some 200)
            [("Content-type", HStr "application/octet-stream");
             ("Content-disposition",
              HStr (inline_filename (Path.basename (filename s))));
             ("Content-length", HInt 0)]
            [])
         cs,
     None).
Proof.
  intros Hacc Hfs. unfold do_GET. cbn [h_server]. rewrite Hacc, Hfs.
  cbn [List.length send_loop]. rewrite firstn_nil. reflexivity.
Qed.

Lemma empty_file_served_witness :
  h_calls (fst (do_GET (fun _ => Some []) "/cd" (mkH Sample.srv no_response [])))
  = [] /\
  downloaded (h_server (fst (do_GET (fun _ => Some []) "/cd"
                               (mkH Sample.srv no_response [])))) = true.
Proof.
  rewrite (empty_file_served (fun _ => Some []) Sample.srv [] "/cd"
             eq_refl eq_refl).
  split; reflexivity.
Defined.

(** ** What the operator is told *)

(** X13.  Once the server is bound, [put] has printed its two lines
    exactly when it was given no token, the second line showing the
    broadcast fragment followed by the secret; it prints nothing else,
    however the run ends.  The secret shown is the one the server accepts
    as a path. *)
Theorem token_shown_iff_generated (env : environment) (file : string)
    (given interface address : option string) (requested : option Z)
    (reporthook : option hook) (limit : option Z) :
  let w := snd (run env file given interface address requested reporthook
                    limit) in
  let broadcast := fst (prepare_token env given) in
  let secret := snd (prepare_token env given) in
  socket (server w) <> Unbound ->
  stdout w
  = match given with
    | None =>
        [(file ++ " is now available on the network")%string;
         ("Ask your friend to 'zget " ++ broadcast ++ secret ++ "'")%string]
    | Some _ => []
    end
  /\ token (server w) = secret
  /\ accepted (server w) ("/" ++ secret) = true.
Proof.
  cbv zeta.
  assert (Hacc : forall s, token s = snd (prepare_token env given) ->
                   accepted s ("/" ++ snd (prepare_token env given)) = true).
  { intros s Hs. apply accepted_iff. left. now rewrite Hs. }
  paths env file given interface address requested reporthook limit;
    intros Hbound;
    try (exfalso; apply Hbound; reflexivity);
    try (split; [reflexivity | split; [reflexivity | apply Hacc; reflexivity]]).
  - handler_paths.
    split; [reflexivity | split; [reflexivity | apply Hacc; reflexivity]].
  - handler_paths;
      (split; [reflexivity | split; [reflexivity | apply Hacc; reflexivity]]).
Qed.

Lemma token_shown_iff_generated_witness :
  stdout (snd (run (Sample.env Sample.all_register [Interrupt]) "notes.txt"
                   None None None None None None))
  = ["notes.txt is now available on the network";
     "Ask your friend to 'zget abcd'"].
Proof.
  apply (token_shown_iff_generated
           (Sample.env Sample.all_register [Interrupt]) "notes.txt"
           None None None None None None).
  vm_compute. discriminate.
Defined.

(** ** Base names *)

Lemma rfind_sep_lower (p : string) : -1 <= Path.rfind_sep p.
Proof.
  induction p as [|c p IH]; cbn [Path.rfind_sep]; [lia|].
  destruct (0 <=? Path.rfind_sep p) eqn:E.
  - apply Z.leb_le in E. lia.
  - destruct (Ascii.eqb c Path.sep); lia.
Qed.

Lemma substring_all (m : nat) (s : string) :
  (String.length s <= m)%nat -> substring 0 m s = s.
Proof.
  revert m; induction s as [|c s IH]; intros m Hm.
  - destruct m; reflexivity.
  - destruct m; cbn in Hm; [lia|]. cbn. rewrite IH by lia. reflexivity.
Qed.

(** [rfind] finds nothing exactly in a path without a separator. *)
Lemma rfind_sep_none_iff (p : string) :
  Path.rfind_sep p = -1 <-> contains_sep p = false.
Proof.
  induction p as [|c p IH]; cbn [Path.rfind_sep contains_sep]; [tauto|].
  pose proof (rfind_sep_lower p) as Hlow.
  destruct (0 <=? Path.rfind_sep p) eqn:E.
  - apply Z.leb_le in E. rewrite orb_false_iff. split; [lia|].
    intros [_ Hc]. apply IH in Hc. lia.
  - apply Z.leb_gt in E. assert (Hr : Path.rfind_sep p = -1) by lia.
    apply IH in Hr. rewrite Hr, orb_false_r.
    destruct (Ascii.eqb c Path.sep); split; intros H; try reflexivity;
      try discriminate; lia.
Qed.

(** What follows the last separator holds no separator. *)
Lemma after_last_sep (p : string) :
  forall m, (String.length p <= m)%nat ->
    Path.rfind_sep (substring (Z.to_nat (Path.rfind_sep p + 1)) m p) = -1.
Proof.
  induction p as [|c p IH]; intros m Hm.
  - destruct m; reflexivity.
  - cbn [Path.rfind_sep]. pose proof (rfind_sep_lower p) as Hlow.
    cbn [String.length] in Hm.
    destruct (0 <=? Path.rfind_sep p) eqn:E.
    + apply Z.leb_le in E.
      replace (Z.to_nat (Path.rfind_sep p + 1 + 1))
        with (S (Z.to_nat (Path.rfind_sep p + 1))) by lia.
      cbn [substring]. apply IH. lia.
    + apply Z.leb_gt in E.
      assert (Hr : Path.rfind_sep p = -1) by lia.
      destruct (Ascii.eqb c Path.sep) eqn:Ec.
      * change (Z.to_nat (0 + 1)) with 1%nat. cbn [substring].
        rewrite substring_all by lia. exact Hr.
      * change (Z.to_nat (-1 + 1)) with 0%nat.
        rewrite substring_all by (cbn [String.length]; lia).
        cbn [Path.rfind_sep]. rewrite Hr, Ec. reflexivity.
Qed.

(** X14.  A base name holds no path separator: the name [put] announces in
    [Content-disposition] and accepts after the leading ['/'] never names a
    directory. *)
Theorem basename_no_separator (p : string) :
  contains_sep (Path.basename p) = false.
Proof.
  apply rfind_sep_none_iff.
  unfold Path.basename, Path.slice_from. apply after_last_sep. lia.
Qed.

Lemma rfind_sep_join (dir name : string) :
  Path.rfind_sep name = -1 ->
  Path.rfind_sep (dir ++ String Path.sep name)
  = Z.of_nat (String.length dir).
Proof.
  intros Hname. induction dir as [|c dir IH].
  - cbn [append Path.rfind_sep String.length]. rewrite Hname. reflexivity.
  - cbn [append Path.rfind_sep String.length]. rewrite IH.
    destruct (0 <=? Z.of_nat (String.length dir)) eqn:E; [lia|].
    apply Z.leb_gt in E. lia.
Qed.

Lemma substring_past (dir rest : string) (m : nat) :
  substring (String.length dir) m (dir ++ rest) = substring 0 m rest.
Proof.
  induction dir as [|c dir IH]; [reflexivity|]. cbn. exact IH.
Qed.

(** X15.  The base name of a file in a directory is the file's name:
    whatever the directory part, [basename (dir + '/' + name)] is [name]
    when [name] holds no separator, and a name without a separator is its
    own base name. *)
Theorem basename_of_path (dir name : string) :
  contains_sep name = false ->
  Path.basename (dir ++ String Path.sep name) = name /\
  Path.basename name = name.
Proof.
  intros Hname. apply rfind_sep_none_iff in Hname. split.
  - unfold Path.basename, Path.slice_from. rewrite (rfind_sep_join _ _ Hname).
    replace (Z.to_nat (Z.of_nat (String.length dir) + 1))
      with (String.length (dir ++ String Path.sep EmptyString)).
    2:{ clear. induction dir as [|c dir IH]; cbn; [reflexivity|].
        cbn in IH. rewrite IH. lia. }
    replace (dir ++ String Path.sep name)%string
      with ((dir ++ String Path.sep EmptyString) ++ name)%string.
    2:{ clear. induction dir as [|c dir IH]; cbn; [reflexivity|].
        now rewrite IH. }
    rewrite substring_past. apply substring_all.
    clear. induction dir as [|c dir IH]; cbn in *; lia.
  - unfold Path.basename, Path.slice_from. rewrite Hname.
    change (Z.to_nat (-1 + 1)) with 0%nat. apply substring_all. lia.
Qed.

Lemma basename_of_path_witness :
  Path.basename "/home/user/notes.txt" = "notes.txt".
Proof.
  exact (proj1 (basename_of_path "/home/user" "notes.txt" eq_refl)).
Defined.

(** ** The command line *)

(** X16.  On a configuration error [cli] leaves the network alone: when
    the input is not a file, when both an interface and an address are
    given, or when the port is out of range, no socket is bound, nothing is
    registered or printed, and nothing is taken from the network. *)
Theorem configuration_errors_before_network (env : environment)
    (isfile : string -> bool) (has_message : cli_error -> bool)
    (args : arguments) :
  isfile (arg_input args) = false \/
  (truthy (arg_interface args) = true /\ truthy (arg_address args) = true) \/
  ~ (0 <= port_or_default env (arg_port args) <= 65535) ->
  snd (cli env isfile has_message args) = initial env.
Proof.
  intros Hbad. unfold cli.
  destruct (isfile (arg_input args)); cbn [negb]; [|reflexivity].
  destruct (truthy (arg_interface args)), (truthy (arg_address args));
    cbn [andb]; try reflexivity.
  all: destruct Hbad as [Hx|[[Hx Hy]|Hx]]; try discriminate.
  all: assert (Hport : in_port_range (port_or_default env (arg_port args)) = false)
         by (unfold in_port_range;
             destruct (0 <=? port_or_default env (arg_port args)) eqn:E1;
             destruct (port_or_default env (arg_port args) <=? 65535) eqn:E2;
             try reflexivity;
             apply Z.leb_le in E1; apply Z.leb_le in E2; lia).
  all: rewrite (run_out_of_range _ _ _ _ _ _ _ _ Hport); reflexivity.
Qed.

Lemma configuration_errors_before_network_witness :
  snd (cli (Sample.env Sample.all_register [Request "/cd"])
           (fun _ => true) (fun _ => true)
           (mkArgs (Some 70000) None None 0 0 None "notes.txt" None))
  = initial (Sample.env Sample.all_register [Request "/cd"]).
Proof.
  apply (configuration_errors_before_network
           (Sample.env Sample.all_register [Request "/cd"])
           (fun _ => true) (fun _ => true)
           (mkArgs (Some 70000) None None 0 0 None "notes.txt" None)).
  right. right. cbn. lia.
Defined.

(** X17.  In quiet mode the progress hook is never called, whatever
    arrives. *)
Theorem quiet_means_no_calls (env : environment)
    (isfile : string -> bool) (has_message : cli_error -> bool)
    (args : arguments) :
  arg_quiet args <> 0 ->
  calls (snd (cli env isfile has_message args)) = [].
Proof.
  intros Hq. unfold cli.
  destruct (isfile (arg_input args)); cbn [negb]; [|reflexivity].
  destruct (truthy (arg_interface args) && truthy (arg_address args));
    [reflexivity|].
  apply Z.eqb_neq in Hq. rewrite Hq.
  paths env (arg_input args) (arg_token args) (arg_interface args)
    (arg_address args) (arg_port args) (@None hook) (arg_timeout args);
    try (handler_paths;
         try match goal with
           | Hn : _ -> ?new = [] |- _ => rewrite (Hn eq_refl)
           end);
    unfold final_outcome;
    repeat match goal with
      | |- context [match ?x with _ => _ end] => destruct x
      end;
    reflexivity.
Qed.

(** X18.  Without [--verbose], and with exceptions that carry a message,
    no exception leaves [cli]: it returns, which it does only after the
    teardown, or it exits with status 1, or it waits for ever. *)
Theorem quiet_failure (env : environment)
    (isfile : string -> bool) (has_message : cli_error -> bool)
    (args : arguments) :
  arg_verbose args = 0 ->
  (forall e, has_message e = true) ->
  let r := fst (cli env isfile has_message args) in
  (r = Finished \/ r = SystemExit 1 \/ r = Waiting) /\
  (r = Finished -> torn_down (snd (cli env isfile has_message args))).
Proof.
  intros Hv Hm. cbv zeta.
  assert (Hexc : forall e, e <> FromPut KeyboardInterrupt ->
                   cli_except has_message (arg_verbose args) e = SystemExit 1).
  { intros e He. unfold cli_except. rewrite Hv, Hm. cbn [Z.eqb negb].
    destruct e as [input| |[]]; try reflexivity. now contradiction He. }
  unfold cli.
  destruct (isfile (arg_input args)); cbn [negb];
    [|rewrite Hexc by discriminate; cbn; split; [auto|discriminate]].
  destruct (truthy (arg_interface args) && truthy (arg_address args));
    [rewrite Hexc by discriminate; cbn; split; [auto|discriminate]|].
  paths env (arg_input args) (arg_token args) (arg_interface args)
    (arg_address args) (arg_port args)
    (if arg_quiet args =? 0 then Some ProgressHook else None)
    (arg_timeout args);
    unfold final_outcome;
    try (destruct (arg_timeout args);
         try match goal with |- context [negb ?b] => destruct b end;
         cbn [negb]);
    rewrite ?Hexc by congruence;
    cbn [fst snd];
    (split; [auto | intros Hx; try discriminate Hx;
                    apply torn_down_after_teardown]).
Qed.

Lemma quiet_means_no_calls_witness :
  calls (snd (cli (Sample.env Sample.all_register [Request "/cd"])
                  (fun _ => true) (fun _ => true)
                  (mkArgs None None None 0 1 None "notes.txt" None))) = []
  /\ downloaded (server (snd (cli (Sample.env Sample.all_register [Request "/cd"])
                  (fun _ => true) (fun _ => true)
                  (mkArgs None None None 0 1 None "notes.txt" None)))) = true.
Proof.
  split.
  - apply (quiet_means_no_calls (Sample.env Sample.all_register [Request "/cd"])
             (fun _ => true) (fun _ => true)
             (mkArgs None None None 0 1 None "notes.txt" None)).
    discriminate.
  - vm_compute. reflexivity.
Defined.

Lemma quiet_failure_witness :
  fst (cli (Sample.env Sample.all_register [])
           (fun _ => true) (fun _ => true)
           (mkArgs None None None 0 0 (Some 5) "notes.txt" None))
  = SystemExit 1.
Proof.
  pose proof (quiet_failure (Sample.env Sample.all_register [])
                (fun _ => true) (fun _ => true)
                (mkArgs None None None 0 0 (Some 5) "notes.txt" None)
                eq_refl (fun _ => eq_refl)) as H.
  cbv zeta in H. destruct H as [_ _]. vm_compute. reflexivity.
Defined.

(** ** The handler and the server object *)

(** The loop on any peer ends within [length fh + 1] iterations and
    leaves the server alone. *)
Lemma send_loop_on_server (fuel : nat) :
  forall budget fh i m h,
    (List.length fh < fuel)%nat ->
    exists h' e,
      send_loop_on fuel budget fh i m h = Some (h', e) /\
      h_server h' = h_server h.
Proof.
  induction fuel as [|fuel IH]; intros budget fh i m h Hfuel; [lia|].
  cbn [send_loop_on].
  destruct (firstn (Z.to_nat chunksize) fh) as [|b data] eqn:Hread.
  - exists h, None. split; reflexivity.
  - assert (Hrest : (List.length (skipn (Z.to_nat chunksize) fh) < fuel)%nat).
    { rewrite length_skipn. pose proof chunk_positive.
      destruct fh; [rewrite firstn_nil in Hread; discriminate|].
      cbn [List.length] in *. lia. }
    assert (Hstep : h_server (call_hook i m (write_chunk (b :: data) h))
                    = h_server h).
    { unfold call_hook, write_chunk; cbn.
      destruct (reporthook (h_server h)); reflexivity. }
    destruct budget as [[|k]|].
    + exists h, (Some socket_error). split; reflexivity.
    + destruct (IH (option_map Nat.pred (Some (S k))) _ (i + 1) m
                   (call_hook i m (write_chunk (b :: data) h)) Hrest)
        as (h' & e & Hrun & Hsrv).
      exists h', e. split; [exact Hrun|]. now rewrite Hsrv.
    + destruct (IH (option_map Nat.pred None) _ (i + 1) m
                   (call_hook i m (write_chunk (b :: data) h)) Hrest)
        as (h' & e & Hrun & Hsrv).
      exists h', e. split; [exact Hrun|]. now rewrite Hsrv.
Qed.

(** X20.  Whatever the connection, a handler changes nothing of the server
    object but the flag [downloaded]; it never clears a flag that is set,
    and it sets the flag only when the path is accepted, the file could be
    opened and the handler ends without an exception. *)
Theorem do_GET_sets_downloaded (c : connection) (fs : filesystem)
    (path : string) (h : handler_state) :
  let s := h_server h in
  let r := do_GET_on c fs path h in
  let s' := h_server (fst r) in
  s' = set_downloaded (downloaded s') s /\
  (downloaded s = true -> downloaded s' = true) /\
  (downloaded s' = true ->
   downloaded s = true \/
   (accepted s path = true /\
    fs (Path.join_curdir (filename s)) <> None /\
    snd r = None)).
Proof.
  cbv zeta.
  assert (Hsame : h_server h = set_downloaded (downloaded (h_server h)) (h_server h))
    by (destruct (h_server h); reflexivity).
  assert (Hkeep : h_server h = set_downloaded (downloaded (h_server h)) (h_server h)
                  /\ (downloaded (h_server h) = true -> downloaded (h_server h) = true)
                  /\ (downloaded (h_server h) = true ->
                      downloaded (h_server h) = true \/
                      (accepted (h_server h) path = true /\
                       fs (Path.join_curdir (filename (h_server h))) <> None /\
                       @None exn = None)))
    by (split; [exact Hsame|split; auto]).
  unfold do_GET_on. destruct (accepted (h_server h) path) eqn:Hacc.
  - destruct (fs (Path.join_curdir (filename (h_server h)))) as [content|] eqn:Hfs.
    + destruct (encodes c _); cbn [negb];
        [|cbn [fst snd]; split; [exact Hsame|split; auto]].
      destruct (resets_after c) as [[|k]|];
        [cbn [fst snd]; split; [exact Hsame|split; auto]| |].
      all: match goal with
           | |- context [send_loop_on ?f ?bd ?fh ?i ?m ?h0] =>
               destruct (send_loop_on_server f bd fh i m h0
                           (Nat.lt_succ_diag_r _)) as (h5 & e & Hrun & Hsrv)
           end;
        rewrite Hrun; cbn [h_server map_out] in Hsrv;
        destruct e as [e|]; cbn [fst snd h_server]; rewrite ?Hsrv;
        [ split; [exact Hsame|split; auto]
        | cbn [downloaded set_downloaded]; split; [reflexivity|];
          split; [reflexivity|]; intros _; right;
          split; [reflexivity|split; [discriminate|reflexivity]] ].
    + cbn [fst snd]. split; [exact Hsame|split; auto].
  - destruct (resets_after c) as [[|k]|]; cbn [fst snd h_server map_out];
      (split; [exact Hsame|split; auto]).
Qed.
